(** * A shallow embedding of the multi-agent document pipeline

    The development follows the Python sources module by module:
    - [agents/classifier_agent.py]  format and intent detection, confidence;
    - [agents/email_agent.py]       urgency of an email;
    - [agents/json_agent.py]        webhook typing, schema validation,
                                    anomaly detection, recommended actions;
    - [agents/pdf_agent.py]         document type, invoice total, flags;
    - [memory/shared_memory.py]     the Redis-backed record store;
    - [routers/action_router.py]    the action dispatch loop.

    Conventions of the model.
    - Text is a [string] over 8-bit characters, each standing for the code
      point of the same number, U+0000 to U+00FF.  White space, word
      characters and letter case are Python's on that range (so U+0085 and
      U+00A0 are white space, and the accented letters are word characters
      with their lower and upper case).  Text with code points from U+0100
      on is not part of the model.
    - A Python [float] is modelled by the rational it denotes ([Q]), with
      the two infinities and NaN added where the code can produce them.
      Every float the code computes is rounded to the nearest double as
      CPython does: a number read from text, an [int] converted, a
      quotient, a sum.
    - A Python exception is a value of [pyexn]; code that can raise returns
      a sum [pyexn + A], and [try]/[except] is written out.
    - Wall-clock readings ([datetime.now()]) are passed in as arguments
      where a stored value depends on them. *)

From Stdlib Require Import QArith Qabs Lia Ascii DecimalString.
From stdpp Require Import gmap strings list.

Set Warnings "-register-all".

(* ===================================================================== *)
(** * Part I.  Definitions                                                *)
(* ===================================================================== *)

(** ** Characters and Python string primitives *)

Module Py.

Definition code (c : ascii) : N := Ascii.N_of_ascii c.

Definition in_range (lo hi : N) (c : ascii) : bool :=
  ((lo <=? code c) && (code c <=? hi))%N.

(** The letters that [str.lower] changes: A-Z and the capital letters of
    U+00C0..U+00DE (the multiplication sign U+00D7 is not one). *)
Definition is_upper (c : ascii) : bool :=
  in_range 65 90 c || in_range 192 214 c || in_range 216 222 c.

(** The letters whose capital is a character of the model: a-z and the
    small letters of U+00E0..U+00FE (the division sign U+00F7 is not one;
    the capitals of U+00B5, U+00DF and U+00FF lie beyond U+00FF). *)
Definition is_lower (c : ascii) : bool :=
  in_range 97 122 c || in_range 224 246 c || in_range 248 254 c.

(** [\d] : the decimal digits; below U+0100 these are 0-9. *)
Definition is_digit (c : ascii) : bool := in_range 48 57 c.

(** [\w] : the underscore and what [str.isalnum] accepts.  Below U+0100
    these are 0-9, A-Z, a-z, the letters U+00AA, U+00B5, U+00BA,
    U+00C0..U+00FF without the two signs U+00D7 and U+00F7, and the
    numeric characters U+00B2, U+00B3, U+00B9, U+00BC..U+00BE. *)
Definition is_word (c : ascii) : bool :=
  in_range 48 57 c || in_range 65 90 c || (code c =? 95)%N
  || in_range 97 122 c
  || (code c =? 170)%N || in_range 178 179 c || (code c =? 181)%N
  || in_range 185 186 c || in_range 188 190 c
  || in_range 192 214 c || in_range 216 246 c || in_range 248 255 c.

(** [str.isspace], [\s], and what [str.strip] and [str.split] take for
    white space: TAB, LF, VT, FF, CR, FS..US, SPACE, U+0085, U+00A0. *)
Definition is_space (c : ascii) : bool :=
  in_range 9 13 c || in_range 28 32 c
  || (code c =? 133)%N || (code c =? 160)%N.

(** The white space that [int] and [float] skip around a number: the
    separators FS..US are not part of it. *)
Definition is_number_space (c : ascii) : bool :=
  in_range 9 13 c || (code c =? 32)%N
  || (code c =? 133)%N || (code c =? 160)%N.

Definition lower_char (c : ascii) : ascii :=
  if is_upper c then Ascii.ascii_of_N (code c + 32) else c.

Definition upper_char (c : ascii) : ascii :=
  if is_lower c then Ascii.ascii_of_N (code c - 32) else c.

Definition char_eqb (a b : ascii) : bool := (code a =? code b)%N.

(** The double quote and the newline. *)
Definition dquote : ascii := "034"%char.
Definition newline : ascii := "010"%char.

(** [s.lower()] *)
Fixpoint lower (s : string) : string :=
  match s with
  | EmptyString => EmptyString
  | String c tl => String (lower_char c) (lower tl)
  end.

(** [needle in hay] for two strings. *)
Fixpoint contains (needle hay : string) : bool :=
  String.prefix needle hay ||
  match hay with
  | EmptyString => false
  | String _ tl => contains needle tl
  end.

(** [s.startswith(p)] *)
Definition startswith (p s : string) : bool := String.prefix p s.

Fixpoint lstrip (s : string) : string :=
  match s with
  | EmptyString => EmptyString
  | String c tl => if is_space c then lstrip tl else s
  end.

Fixpoint rev_string (acc s : string) : string :=
  match s with
  | EmptyString => acc
  | String c tl => rev_string (String c acc) tl
  end.

Definition rstrip (s : string) : string :=
  rev_string EmptyString (lstrip (rev_string EmptyString s)).

(** [s.strip()] *)
Definition strip (s : string) : string := rstrip (lstrip s).

(** [s.replace(c, '')] for a single character [c]. *)
Fixpoint remove_char (c : ascii) (s : string) : string :=
  match s with
  | EmptyString => EmptyString
  | String d tl =>
      if char_eqb c d then remove_char c tl else String d (remove_char c tl)
  end.

(** [s[:n]] *)
Definition slice_to (n : nat) (s : string) : string := String.substring 0 n s.

(** [any(k in text for k in keywords)] *)
Definition any_in (keywords : list string) (text : string) : bool :=
  existsb (fun k => contains k text) keywords.

(** Exceptions the modelled code can raise or catch. *)
Inductive pyexn : Type :=
| TypeError (msg : string)
| ValueError (msg : string)
| OverflowError (msg : string)
| ZeroDivisionError (msg : string)
| AttributeError (msg : string)
| KeyError (msg : string)
| JSONDecodeError (msg : string) (pos : nat)
| RuntimeError (msg : string).

(** [str(e)] *)
Definition exn_str (e : pyexn) : string :=
  match e with
  | TypeError m | ValueError m | OverflowError m | ZeroDivisionError m
  | AttributeError m | KeyError m | RuntimeError m
  | JSONDecodeError m _ => m
  end.

(** Code that may raise: the first exception ends the computation. *)
Definition bind {A B} (m : pyexn + A) (k : A -> pyexn + B) : pyexn + B :=
  match m with
  | inl e => inl e
  | inr a => k a
  end.

Notation "'let*' x ':=' m 'in' k" := (bind m (fun x => k))
  (at level 10, x name, m at level 100, k at level 200).
Notation "'let*' ' p ':=' m 'in' k" :=
  (bind m (fun x => match x with p => k end))
  (at level 10, p pattern, m at level 100, k at level 200).

(** Python floats: the rational denoted, the infinities, NaN. *)
Inductive pyfloat : Type :=
| FFin (q : Q)
| FInf (negative : bool)
| FNan.

(** [x < y] and [x > y] on floats; every comparison with NaN is false. *)
Definition flt (x y : pyfloat) : bool :=
  match x, y with
  | FNan, _ | _, FNan => false
  | FFin a, FFin b => negb (Qle_bool b a)
  | FFin _, FInf neg => negb neg
  | FInf neg, FFin _ => neg
  | FInf a, FInf b => a && negb b
  end.

Definition fgt (x y : pyfloat) : bool := flt y x.

Definition of_Z (z : Z) : pyfloat := FFin (inject_Z z).

(** [s.split()]: the maximal runs of characters that are not white space. *)
Fixpoint str_split (s : string) : list string :=
  match s with
  | EmptyString => []
  | String c tl =>
      if is_space c then str_split tl
      else
        match tl with
        | EmptyString => [String c EmptyString]
        | String c' _ =>
            if is_space c' then String c EmptyString :: str_split tl
            else
              match str_split tl with
              | word :: rest => String c word :: rest
              | [] => [String c EmptyString]
              end
        end
  end.

(** [s.split(sep)] for a separator of one character. *)
Fixpoint str_split_on (sep : ascii) (s : string) : list string :=
  match s with
  | EmptyString => [EmptyString]
  | String c tl =>
      if char_eqb c sep then EmptyString :: str_split_on sep tl
      else
        match str_split_on sep tl with
        | first :: rest => String c first :: rest
        | [] => [String c EmptyString]
        end
  end.

End Py.

Export Py.

(** ** Regular expressions: the fragment of Python's [re] used by the agents

    A backtracking matcher with Python's priorities: alternatives are tried
    left to right, greedy repetition tries one more iteration first, lazy
    repetition tries to stop first.  Matching is written in
    continuation-passing style; the continuation receives the state reached
    and may refuse it, which makes the matcher backtrack. *)

Module Re.

Inductive citem : Type :=
| CLit (c : ascii)       (* a literal character of a class *)
| CDigit                 (* \d *)
| CWord                  (* \w *)
| CSpace.                (* \s *)

Inductive regex : Type :=
| REmpty
| RLit (c : ascii)
| RDot                         (* .  : any character but a newline *)
| RSet (items : list citem)    (* [...] and the escapes \d \w \s *)
| RCat (r1 r2 : regex)
| RAlt (r1 r2 : regex)
| RStar (r : regex)            (* r*  *)
| RLazyStar (r : regex)        (* r*? *)
| RGroup (n : nat) (r : regex) (* the n-th capturing group *)
| RBol                         (* ^  without MULTILINE *)
| RWordB.                      (* \b *)

(** Derived forms. *)
Definition ROpt (r : regex) : regex := RAlt r REmpty.            (* r?  *)
Definition RPlus (r : regex) : regex := RCat r (RStar r).        (* r+  *)
Definition RLazyPlus (r : regex) : regex := RCat r (RLazyStar r). (* r+? *)

Fixpoint RTimes (n : nat) (r : regex) : regex :=                 (* r{n} *)
  match n with
  | 0 => REmpty
  | S n' => RCat r (RTimes n' r)
  end.

Definition RAtLeast (n : nat) (r : regex) : regex :=             (* r{n,} *)
  RCat (RTimes n r) (RStar r).

(** A literal word, character by character. *)
Fixpoint RStr (s : string) : regex :=
  match s with
  | EmptyString => REmpty
  | String c tl => RCat (RLit c) (RStr tl)
  end.

(** A sequence of pieces. *)
Definition RSeq (rs : list regex) : regex := foldr RCat REmpty rs.

(** A choice between words. *)
Fixpoint RWords (ws : list string) : regex :=
  match ws with
  | [] => REmpty
  | [x] => RStr x
  | x :: tl => RAlt (RStr x) (RWords tl)
  end.

Definition d : regex := RSet [CDigit].
Definition w : regex := RSet [CWord].
Definition s : regex := RSet [CSpace].

(** The matcher's state: how many characters were consumed, the character
    just before the cursor, what is left, and the groups captured so far. *)
Record mstate : Type := MState {
  m_pos : nat;
  m_prev : option ascii;
  m_rest : string;
  m_caps : list (nat * string)
}.

Definition advance (st : mstate) (c : ascii) (tl : string) : mstate :=
  MState (S (m_pos st)) (Some c) tl (m_caps st).

Definition item_match (it : citem) (c : ascii) : bool :=
  match it with
  | CLit x => char_eqb x c
  | CDigit => is_digit c
  | CWord => is_word c
  | CSpace => is_space c
  end.

(** Under IGNORECASE a character matches when it or one of its case
    variants does. *)
Definition lit_match (ic : bool) (x c : ascii) : bool :=
  if ic then char_eqb (lower_char x) (lower_char c) else char_eqb x c.

Definition set_match (ic : bool) (items : list citem) (c : ascii) : bool :=
  existsb (fun it => item_match it c) items ||
  (ic && existsb (fun it => item_match it (lower_char c)
                            || item_match it (upper_char c)) items).

Definition word_opt (o : option ascii) : bool :=
  match o with
  | Some c => is_word c
  | None => false
  end.

Definition next_char (st : mstate) : option ascii :=
  match m_rest st with
  | EmptyString => None
  | String c _ => Some c
  end.

Definition at_boundary (st : mstate) : bool :=
  xorb (word_opt (m_prev st)) (word_opt (next_char st)).

Definition step_if (p : ascii -> bool) {A} (st : mstate)
    (k : mstate -> option A) : option A :=
  match m_rest st with
  | String c tl => if p c then k (advance st c tl) else None
  | EmptyString => None
  end.

Definition set_cap (n : nat) (from to : mstate) : mstate :=
  let text := String.substring 0 (m_pos to - m_pos from) (m_rest from) in
  MState (m_pos to) (m_prev to) (m_rest to)
         ((n, text) :: filter (fun p => negb (fst p =? n)) (m_caps to)).

Definition or_else {A} (x y : option A) : option A :=
  match x with
  | Some _ => x
  | None => y
  end.

(** The loops of the two repetitions, over the matcher of their body.  An
    iteration only counts when the body consumed something, so a fuel of
    one more than the remaining length is never exhausted. *)
Fixpoint star_loop {A} (body : mstate -> (mstate -> option A) -> option A)
    (k : mstate -> option A) (fuel : nat) (st0 : mstate) : option A :=
  match fuel with
  | 0 => k st0
  | S fuel' =>
      or_else
        (body st0 (fun st1 =>
           if m_pos st0 <? m_pos st1 then star_loop body k fuel' st1
           else None))
        (k st0)
  end.

Fixpoint lazy_loop {A} (body : mstate -> (mstate -> option A) -> option A)
    (k : mstate -> option A) (fuel : nat) (st0 : mstate) : option A :=
  match fuel with
  | 0 => k st0
  | S fuel' =>
      or_else
        (k st0)
        (body st0 (fun st1 =>
           if m_pos st0 <? m_pos st1 then lazy_loop body k fuel' st1
           else None))
  end.

(** [rmatch ic r st k]: match [r] at the cursor of [st], then continue with
    [k]. *)
Fixpoint rmatch {A} (ic : bool) (r : regex) (st : mstate)
    (k : mstate -> option A) {struct r} : option A :=
  match r with
  | REmpty => k st
  | RLit x => step_if (lit_match ic x) st k
  | RDot => step_if (fun c => negb (char_eqb c newline)) st k
  | RSet items => step_if (set_match ic items) st k
  | RCat r1 r2 => rmatch ic r1 st (fun st1 => rmatch ic r2 st1 k)
  | RAlt r1 r2 => or_else (rmatch ic r1 st k) (rmatch ic r2 st k)
  | RStar r1 =>
      star_loop (rmatch ic r1) k (S (String.length (m_rest st))) st
  | RLazyStar r1 =>
      lazy_loop (rmatch ic r1) k (S (String.length (m_rest st))) st
  | RGroup n r1 => rmatch ic r1 st (fun st1 => k (set_cap n st st1))
  | RBol => if m_pos st =? 0 then k st else None
  | RWordB => if at_boundary st then k st else None
  end.

(** The state after the cursor has moved over as many characters as [w]
    has. *)
Fixpoint consume (w : string) (st : mstate) : mstate :=
  match w, m_rest st with
  | String _ w', String c tl => consume w' (advance st c tl)
  | _, _ => st
  end.

(** The same state, counted from [n] characters earlier. *)
Definition shift (n : nat) (st : mstate) : mstate :=
  MState (n + m_pos st) (m_prev st) (m_rest st) (m_caps st).

(** The pattern has no start-of-text anchor. *)
Fixpoint unanchored (r : regex) : bool :=
  match r with
  | RBol => false
  | RCat r1 r2 | RAlt r1 r2 => unanchored r1 && unanchored r2
  | RStar r1 | RLazyStar r1 | RGroup _ r1 => unanchored r1
  | _ => true
  end.

(** The character before the cursor once it has moved over [a]. *)
Fixpoint prev_after (prev : option ascii) (a : string) : option ascii :=
  match a with
  | EmptyString => prev
  | String c tl => prev_after (Some c) tl
  end.

(** Every character of [w] passes the test [p]. *)
Fixpoint all_chars (p : ascii -> bool) (w : string) : bool :=
  match w with
  | EmptyString => true
  | String c tl => p c && all_chars p tl
  end.

(** One attempt at the cursor. *)
Definition match_here (ic : bool) (r : regex) (st : mstate) : option mstate :=
  rmatch ic r st Some.

(** A match object: where it starts, where it ends, its groups. *)
Record rmatch_obj : Type := Match {
  mt_start : nat;
  mt_end : nat;
  mt_groups : list (nat * string);
  mt_after : mstate
}.

(** The leftmost match at or after the cursor. *)
Fixpoint search_from (ic : bool) (r : regex) (pos : nat)
    (prev : option ascii) (rest : string) : option rmatch_obj :=
  match match_here ic r (MState pos prev rest []) with
  | Some st' => Some (Match pos (m_pos st') (m_caps st') st')
  | None =>
      match rest with
      | EmptyString => None
      | String c tl => search_from ic r (S pos) (Some c) tl
      end
  end.

(** [re.search(r, text, flags)] *)
Definition search (ic : bool) (r : regex) (text : string) : option rmatch_obj :=
  search_from ic r 0 None text.

(** [bool(re.search(...))] *)
Definition found (ic : bool) (r : regex) (text : string) : bool :=
  match search ic r text with
  | Some _ => true
  | None => false
  end.

(** [m.group(n)] *)
Definition group (n : nat) (m : rmatch_obj) : string :=
  match List.find (fun p => fst p =? n) (mt_groups m) with
  | Some p => snd p
  | None => EmptyString
  end.

(** [re.findall]: successive leftmost matches that do not overlap.  After
    an empty match the scan moves one character on (none of the agents'
    patterns can match the empty string, so this case never decides). *)
Fixpoint findall_from (fuel : nat) (ic : bool) (r : regex) (pos : nat)
    (prev : option ascii) (rest : string) : list rmatch_obj :=
  match fuel with
  | 0 => []
  | S fuel' =>
      match search_from ic r pos prev rest with
      | None => []
      | Some m =>
          let st := mt_after m in
          if mt_start m <? mt_end m
          then m :: findall_from fuel' ic r (m_pos st) (m_prev st) (m_rest st)
          else
            match m_rest st with
            | EmptyString => [m]
            | String c tl =>
                m :: findall_from fuel' ic r (S (m_pos st)) (Some c) tl
            end
      end
  end.

Definition findall (ic : bool) (r : regex) (text : string) : list rmatch_obj :=
  findall_from (S (String.length text)) ic r 0 None text.

(** [m.group()]: the text matched, cut out of the subject. *)
Definition group0 (text : string) (m : rmatch_obj) : string :=
  String.substring (mt_start m) (mt_end m - mt_start m) text.

(** The words a pattern can match, whatever surrounds them: a repetition
    matches a sequence of words of its body, a group the words of its
    body, an anchor the empty word. *)
Inductive star_of (L : string -> Prop) : string -> Prop :=
| star_nil : star_of L EmptyString
| star_more u v : L u -> star_of L v -> star_of L (u +:+ v).

Fixpoint lang (ic : bool) (r : regex) (w : string) : Prop :=
  match r with
  | REmpty | RBol | RWordB => w = EmptyString
  | RLit x => exists c, w = String c EmptyString /\ lit_match ic x c = true
  | RDot => exists c, w = String c EmptyString /\ char_eqb c newline = false
  | RSet items =>
      exists c, w = String c EmptyString /\ set_match ic items c = true
  | RCat r1 r2 => exists u v, w = u +:+ v /\ lang ic r1 u /\ lang ic r2 v
  | RAlt r1 r2 => lang ic r1 w \/ lang ic r2 w
  | RStar r1 | RLazyStar r1 => star_of (lang ic r1) w
  | RGroup _ r1 => lang ic r1 w
  end.

(** The cursor of [st'] is that of [st] moved over the word [w]. *)
Definition reaches (w : string) (st st' : mstate) : Prop :=
  m_rest st = w +:+ m_rest st'
  /\ m_pos st' = m_pos st + String.length w
  /\ m_prev st' = prev_after (m_prev st) w.

End Re.

(** ** Numbers written as text: [int(s)] and [float(s)] *)

Module Num.

Definition digit_val (c : ascii) : Z := Z.of_N (code c - 48).

Fixpoint digits_val (acc : Z) (s : string) : Z :=
  match s with
  | EmptyString => acc
  | String c tl => digits_val (10 * acc + digit_val c) tl
  end.

(** The longest prefix of digits, and what follows it. *)
Fixpoint span_digits (s : string) : string * string :=
  match s with
  | String c tl =>
      if is_digit c
      then let '(ds, rest) := span_digits tl in (String c ds, rest)
      else (EmptyString, s)
  | EmptyString => (EmptyString, EmptyString)
  end.

(** Digits in which single underscores may separate two digits (PEP 515);
    the underscores are dropped. *)
Definition starts_with_digit (s : string) : bool :=
  match s with
  | String c _ => is_digit c
  | EmptyString => false
  end.

Fixpoint span_digits_us (s : string) : string * string :=
  match s with
  | String c tl =>
      if is_digit c then
        let '(ds, rest) :=
          match tl with
          | String u tl2 =>
              if char_eqb u "_" && starts_with_digit tl2
              then span_digits_us tl2
              else span_digits_us tl
          | EmptyString => (EmptyString, EmptyString)
          end in
        (String c ds, rest)
      else (EmptyString, s)
  | EmptyString => (EmptyString, EmptyString)
  end.

(** Rounding to the nearest integer, ties to the even one, of [n / d] for
    [0 <= n] and [0 < d]. *)
Definition round_half_even (n d : Z) : Z :=
  let m := (n / d)%Z in
  let r := (n mod d)%Z in
  if (2 * r <? d)%Z then m
  else if (d <? 2 * r)%Z then (m + 1)%Z
  else if Z.even m then m else (m + 1)%Z.

(** [2 ^ e <= n / d], for [0 < n] and [0 < d]. *)
Definition at_least_pow2 (n d e : Z) : bool :=
  if (0 <=? e)%Z then (d * 2 ^ e <=? n)%Z else (d <=? n * 2 ^ (- e))%Z.

(** The IEEE 754 double nearest to a rational (ties to even), as CPython
    computes it for a number written in decimal: 53 bits of mantissa,
    gradual underflow below 2^-1022, infinity from 2^1024 on. *)
Definition binary64 (q : Q) : pyfloat :=
  let n := Z.abs (Qnum q) in
  let d := Zpos (Qden q) in
  if (n =? 0)%Z then FFin 0
  else
    let negative := (Qnum q <? 0)%Z in
    let e0 := (Z.log2 n - Z.log2 d)%Z in
    let e := if at_least_pow2 n d e0 then e0 else (e0 - 1)%Z in
    let p := Z.max (e - 52) (-1074) in
    if (0 <=? p)%Z then
      let v := (round_half_even n (d * 2 ^ p) * 2 ^ p)%Z in
      if (2 ^ 1024 <=? v)%Z then FInf negative
      else FFin (inject_Z (if negative then - v else v))
    else
      let m := round_half_even (n * 2 ^ (- p)) d in
      FFin (Qred (Qmake (if negative then - m else m) (Z.to_pos (2 ^ (- p))))).

(** The float written [ip.fp e exp], negated when [neg]. *)
Definition dec_float (neg : bool) (ip fp : string) (exp : Z) : pyfloat :=
  let m := digits_val 0 (ip +:+ fp) in
  let e := (exp - Z.of_nat (String.length fp))%Z in
  let q := if (0 <=? e)%Z then inject_Z (m * 10 ^ e)
           else Qmake m (Z.to_pos (10 ^ (- e))) in
  binary64 (if neg then Qopp q else q).

(** [float(n)] for an [int]: the nearest double; values that round to
    2^1024 or beyond raise [OverflowError]. *)
Definition float_of_int (z : Z) : pyexn + pyfloat :=
  if (Z.abs z <? 2 ^ 1024 - 2 ^ 970)%Z then inr (binary64 (inject_Z z))
  else inl (OverflowError "int too large to convert to float").

Definition split_sign (s : string) : bool * string :=
  match s with
  | String c tl =>
      if char_eqb c "-" then (true, tl)
      else if char_eqb c "+" then (false, tl)
      else (false, s)
  | EmptyString => (false, s)
  end.

(** The optional exponent part; [None] when it is malformed. *)
Definition exponent (s : string) : option (Z * string) :=
  match s with
  | String c tl =>
      if char_eqb (lower_char c) "e" then
        let '(neg, body) := split_sign tl in
        let '(ds, rest) := span_digits_us body in
        if String.eqb ds EmptyString then None
        else Some (if neg then (- digits_val 0 ds)%Z else digits_val 0 ds, rest)
      else Some (0%Z, s)
  | EmptyString => Some (0%Z, s)
  end.

(** The text of a number without the white space around it. *)
Fixpoint lstrip_number (s : string) : string :=
  match s with
  | EmptyString => EmptyString
  | String c tl => if is_number_space c then lstrip_number tl else s
  end.

Definition strip_number (s : string) : string :=
  rev_string EmptyString
    (lstrip_number (rev_string EmptyString (lstrip_number s))).

Definition not_a_float (s : string) : pyexn :=
  ValueError ("could not convert string to float: " +:+ s).

(** [float(s)] for a string. *)
Definition float_of_str (s : string) : pyexn + pyfloat :=
  let '(neg, body) := split_sign (strip_number s) in
  let l := lower body in
  if String.eqb l "inf" || String.eqb l "infinity" then inr (FInf neg)
  else if String.eqb l "nan" then inr FNan
  else
    let '(ip, r1) := span_digits_us body in
    let '(fp, r2) :=
      match r1 with
      | String c tl =>
          if char_eqb c "." then span_digits_us tl else (EmptyString, r1)
      | EmptyString => (EmptyString, r1)
      end in
    if String.eqb ip EmptyString && String.eqb fp EmptyString
    then inl (not_a_float s)
    else
      match exponent r2 with
      | Some (e, EmptyString) => inr (dec_float neg ip fp e)
      | _ => inl (not_a_float s)
      end.

(** [int(s)] for a string. *)
Definition int_of_str (s : string) : pyexn + Z :=
  let '(neg, body) := split_sign (strip_number s) in
  match span_digits_us body with
  | (String c ds, EmptyString) =>
      let v := digits_val 0 (String c ds) in
      inr (if neg then (- v)%Z else v)
  | _ => inl (ValueError ("invalid literal for int() with base 10: " +:+ s))
  end.

(** [a / b] on two non-negative [int]s: the double nearest to the
    quotient; a quotient that rounds to 2^1024 or beyond raises
    [OverflowError]. *)
Definition int_true_div (a b : nat) : pyexn + pyfloat :=
  if b =? 0 then inl (ZeroDivisionError "division by zero")
  else
    match binary64 (Qmake (Z.of_nat a) (Pos.of_nat b)) with
    | FInf _ =>
        inl (OverflowError "integer division result too large for a float")
    | quotient => inr quotient
    end.

(** [x + y] on two floats: the double nearest to the sum, an infinity when
    it rounds to 2^1024 or beyond. *)
Definition fadd (x y : pyfloat) : pyfloat :=
  match x, y with
  | FNan, _ | _, FNan => FNan
  | FFin a, FFin b => binary64 (a + b)
  | FInf neg, FFin _ | FFin _, FInf neg => FInf neg
  | FInf a, FInf b => if Bool.eqb a b then FInf a else FNan
  end.

(** [x / y] on two floats. *)
Definition float_div (x y : pyfloat) : pyexn + pyfloat :=
  match y with
  | FFin b =>
      if Qeq_bool b 0 then inl (ZeroDivisionError "float division by zero")
      else
        inr match x with
            | FFin a => binary64 (a / b)
            | FInf neg => FInf (xorb neg (negb (Qle_bool 0 b)))
            | FNan => FNan
            end
  | FInf _ =>
      inr match x with
          | FFin _ => FFin 0
          | _ => FNan
          end
  | FNan => inr FNan
  end.

(** [x / n] for a float and an [int]: the [int] is converted first. *)
Definition float_div_int (x : pyfloat) (n : Z) : pyexn + pyfloat :=
  let* y := float_of_int n in
  float_div x y.

End Num.

(** ** models/schemas.py: the enumerations *)

Inductive FormatType : Type := EMAIL | JSON | PDF.

Inductive BusinessIntent : Type :=
| RFQ | COMPLAINT | INVOICE | REGULATION | FRAUD_RISK | UNKNOWN.

Inductive Urgency : Type := LOW | MEDIUM | HIGH | CRITICAL.

#[global] Instance FormatType_eq_dec : EqDecision FormatType.
Proof. solve_decision. Defined.

#[global] Instance BusinessIntent_eq_dec : EqDecision BusinessIntent.
Proof. solve_decision. Defined.

#[global] Instance Urgency_eq_dec : EqDecision Urgency.
Proof. solve_decision. Defined.

Inductive Tone : Type := POLITE | NEUTRAL | ESCALATION | THREATENING | ANGRY.

#[global] Instance Tone_eq_dec : EqDecision Tone.
Proof. solve_decision. Defined.

(** The [value] of a member of [FormatType] and of [BusinessIntent]. *)
Definition FormatType_value (f : FormatType) : string :=
  match f with
  | EMAIL => "email"
  | JSON => "json"
  | PDF => "pdf"
  end.

Definition BusinessIntent_value (i : BusinessIntent) : string :=
  match i with
  | RFQ => "rfq"
  | COMPLAINT => "complaint"
  | INVOICE => "invoice"
  | REGULATION => "regulation"
  | FRAUD_RISK => "fraud_risk"
  | UNKNOWN => "unknown"
  end.

(** [d.get(key, default)] on a table kept in declaration order. *)
Definition table_get {K V} `{EqDecision K} (key : K) (default : V)
    (table : list (K * V)) : V :=
  match List.find (fun p => bool_decide (fst p = key)) table with
  | Some p => snd p
  | None => default
  end.

(** [max(xs, key=f)]: the first element whose key is maximal. *)
Definition py_max {A} (key : A -> nat) (xs : list A) : option A :=
  fold_left (fun best x =>
               match best with
               | None => Some x
               | Some b => if key b <? key x then Some x else Some b
               end) xs None.

(** ** agents/classifier_agent.py *)

Module Classifier.

Import Re.

(** [self.format_patterns], in declaration order. *)
Definition format_patterns : list (FormatType * list regex) :=
  [ (EMAIL,
     [ RStr "subject:"; RStr "from:"; RStr "to:";
       RSeq [RLit "@"; RPlus w; RLit "."; RPlus w];            (* @\w+\.\w+ *)
       RStr "dear"; RStr "regards"; RStr "sincerely" ]);
    (JSON,
     [ RSeq [RBol; RStar s; RLit "{"];                          (* ^\s*\{ *)
       RSeq [RLit ":"; RStar s;
             RSet [CLit dquote; CLit "["; CLit "{"]];   (* :\s*[dquote\[\{] *)
       RSeq [RLit dquote; RLit ":"; RStar s; RPlus d];  (* dquote:\s*\d+ *)
       RStr "webhook"; RStr "payload"; RStr "data" ]);
    (PDF,
     [ RStr "%PDF"; RStr "invoice"; RStr "total:"; RStr "amount:";
       RStr "policy"; RStr "regulation"; RStr "compliance" ]) ].

(** [self.intent_keywords], in declaration order. *)
Definition intent_keywords : list (BusinessIntent * list string) :=
  [ (RFQ, ["request for quote"; "rfq"; "quotation"; "bid";
           "proposal"; "pricing"; "estimate"]);
    (COMPLAINT, ["complaint"; "dissatisfied"; "problem"; "issue";
                 "unhappy"; "angry"; "disappointed"; "terrible"]);
    (INVOICE, ["invoice"; "bill"; "payment"; "amount due";
               "total:"; "line item"; "tax"; "subtotal"]);
    (REGULATION, ["gdpr"; "compliance"; "regulation"; "policy";
                  "fda"; "sox"; "hipaa"; "regulatory"]);
    (FRAUD_RISK, ["suspicious"; "fraud"; "anomaly"; "unusual";
                  "security"; "breach"; "unauthorized"; "alert"]) ].

(** The inner loop of [_detect_format]:
    [score += len(re.findall(pattern, input_data, re.IGNORECASE))]. *)
Definition format_score (patterns : list regex) (input_data : string) : nat :=
  fold_left (fun score pattern =>
               score + length (findall true pattern input_data))
            patterns 0.

(** The dictionary [format_scores] after the outer loop. *)
Definition format_scores (input_data : string) : list (FormatType * nat) :=
  map (fun entry => (fst entry, format_score (snd entry) input_data))
      format_patterns.

Definition format_fallback (input_data : string) : FormatType :=
  if startswith "{" (strip input_data) then JSON
  else if contains "@" input_data
          && (contains "subject:" (lower input_data)
              || contains "from:" (lower input_data))
  then EMAIL
  else PDF.

Definition _detect_format (input_data : string) : FormatType :=
  let scores := format_scores input_data in
  match py_max (fun f => table_get f 0 scores) (map fst scores) with
  | Some best_format =>
      if 0 <? table_get best_format 0 scores then best_format
      else format_fallback input_data
  | None => format_fallback input_data
  end.

(** The inner loop of [_detect_intent]. *)
Definition intent_score (keywords : list string) (input_data : string) : nat :=
  fold_left (fun score keyword =>
               if contains (lower keyword) (lower input_data)
               then score + 1 else score)
            keywords 0.

Definition intent_scores (input_data : string) : list (BusinessIntent * nat) :=
  map (fun entry => (fst entry, intent_score (snd entry) input_data))
      intent_keywords.

Definition _detect_intent (input_data : string) : BusinessIntent :=
  let scores := intent_scores input_data in
  match py_max (fun i => table_get i 0 scores) (map fst scores) with
  | Some best_intent =>
      if 0 <? table_get best_intent 0 scores then best_intent else UNKNOWN
  | None => UNKNOWN
  end.

Definition _calculate_confidence (input_data : string)
    (format_type : FormatType) (business_intent : BusinessIntent)
    : pyexn + pyfloat :=
  let format_matches :=
    fold_left (fun n pattern =>
                 if found true pattern input_data then n + 1 else n)
              (table_get format_type [] format_patterns) 0 in
  let intent_matches :=
    fold_left (fun n keyword =>
                 if contains (lower keyword) (lower input_data)
                 then n + 1 else n)
              (table_get business_intent [] intent_keywords) 0 in
  let total_format_patterns :=
    length (table_get format_type [] format_patterns) in
  let total_intent_keywords :=
    length (table_get business_intent [] intent_keywords) in
  let* format_confidence :=
    Num.int_true_div format_matches (Nat.max total_format_patterns 1) in
  let* intent_confidence :=
    Num.int_true_div intent_matches (Nat.max total_intent_keywords 1) in
  Num.float_div_int (Num.fadd format_confidence intent_confidence) 2.

(** The result model of [models/schemas.py]; a [confidence_score] is a
    finite float, held as the rational it denotes. *)
Record ClassificationResult : Type := {
  format_type : FormatType;
  business_intent : BusinessIntent;
  confidence_score : Q
}.

(** [ClassificationResult(...)]: the field [confidence_score] is declared
    with [ge=0, le=1], and the constructor raises a [ValidationError] (a
    [ValueError], whose text is not modelled) for any other float. *)
Definition new_ClassificationResult (format_type : FormatType)
    (business_intent : BusinessIntent) (confidence : pyfloat)
    : pyexn + ClassificationResult :=
  match confidence with
  | FFin q =>
      if Qle_bool 0 q && Qle_bool q 1
      then inr {| format_type := format_type;
                  business_intent := business_intent;
                  confidence_score := q |}
      else inl (ValueError "confidence_score")
  | _ => inl (ValueError "confidence_score")
  end.

(** [ClassifierAgent.process]; the metadata dictionary and the trace line
    written to the store do not enter any of the three verdicts. *)
Definition process (input_data : string) : pyexn + ClassificationResult :=
  let format_type := _detect_format input_data in
  let business_intent := _detect_intent input_data in
  let* confidence :=
    _calculate_confidence input_data format_type business_intent in
  new_ClassificationResult format_type business_intent confidence.

End Classifier.

(** ** agents/email_agent.py *)

Module EmailAgent.

Import Re.

(** [self.urgency_keywords], in declaration order. *)
Definition urgency_keywords : list (Urgency * list string) :=
  [ (CRITICAL, ["critical"; "emergency"; "urgent"; "asap"; "immediate"]);
    (HIGH, ["important"; "priority"; "soon"; "quickly"; "expedite"]);
    (MEDIUM, ["please"; "when possible"; "at your convenience"]);
    (LOW, ["whenever"; "no rush"; "low priority"]) ].

(** The two nested loops with their [return urgency]. *)
Fixpoint first_tier (table : list (Urgency * list string))
    (text_lower : string) : option Urgency :=
  match table with
  | [] => None
  | (urgency, keywords) :: rest =>
      if existsb (fun keyword => contains keyword text_lower) keywords
      then Some urgency
      else first_tier rest text_lower
  end.

(** [!{2,}] *)
Definition exclamations : regex := RAtLeast 2 (RLit "!").

(** [by\s+(?:today|tomorrow|end of day|eod)] *)
Definition deadline : regex :=
  RSeq [RStr "by"; RPlus s; RWords ["today"; "tomorrow"; "end of day"; "eod"]].

Definition _determine_urgency (email_text : string) : Urgency :=
  let text_lower := lower email_text in
  match first_tier urgency_keywords text_lower with
  | Some urgency => urgency
  | None =>
      if found false exclamations email_text then HIGH
      else if found false deadline text_lower then HIGH
      else MEDIUM
  end.

End EmailAgent.

(** ** JSON values and [json.loads] *)

Module Json.

Import Num.

(** What [json.loads] builds.  A [dict] keeps its keys in insertion order. *)
Inductive json : Type :=
| JNull
| JBool (b : bool)
| JInt (z : Z)
| JFloat (f : pyfloat)
| JStr (s : string)
| JList (items : list json)
| JDict (items : list (string * json)).

(** [d[key] = value]: overwrite in place, or append a new key. *)
Fixpoint dict_set {V} (key : string) (value : V) (items : list (string * V))
    : list (string * V) :=
  match items with
  | [] => [(key, value)]
  | (k, v) :: rest =>
      if String.eqb k key then (k, value) :: rest
      else (k, v) :: dict_set key value rest
  end.

Fixpoint dict_get {V} (key : string) (items : list (string * V)) : option V :=
  match items with
  | [] => None
  | (k, v) :: rest => if String.eqb k key then Some v else dict_get key rest
  end.

(** [dict(pairs)] *)
Definition dict_of_pairs {V} (pairs : list (string * V)) : list (string * V) :=
  fold_left (fun acc p => dict_set (fst p) (snd p) acc) pairs [].

Definition is_json_ws (c : ascii) : bool :=
  char_eqb c " " || char_eqb c "009" || char_eqb c "010" || char_eqb c "013".

Fixpoint skip_ws (s : string) (pos : nat) : string * nat :=
  match s with
  | String c tl => if is_json_ws c then skip_ws tl (S pos) else (s, pos)
  | EmptyString => (s, pos)
  end.

Definition hex_val (c : ascii) : option N :=
  if is_digit c then Some (code c - 48)%N
  else if in_range 97 102 c then Some (code c - 87)%N
  else if in_range 65 70 c then Some (code c - 55)%N
  else None.

(** The character for [\uXXXX]; code points beyond the 8-bit alphabet have
    no counterpart in this model and are shown as a question mark. *)
Definition unicode_escape (h1 h2 h3 h4 : ascii) : option ascii :=
  match hex_val h1, hex_val h2, hex_val h3, hex_val h4 with
  | Some a, Some b, Some c, Some e =>
      let n := (((a * 16 + b) * 16 + c) * 16 + e)%N in
      Some (if (n <? 256)%N then Ascii.ascii_of_N n else "?"%char)
  | _, _, _, _ => None
  end.

Definition simple_escape (c : ascii) : option ascii :=
  if char_eqb c dquote then Some dquote
  else if char_eqb c "\" then Some "\"%char
  else if char_eqb c "/" then Some "/"%char
  else if char_eqb c "b" then Some "008"%char
  else if char_eqb c "f" then Some "012"%char
  else if char_eqb c "n" then Some "010"%char
  else if char_eqb c "r" then Some "013"%char
  else if char_eqb c "t" then Some "009"%char
  else None.

(** The body of a string literal, after its opening quote at [start]. *)
Fixpoint scan_string (s : string) (pos start : nat)
    : pyexn + (string * string * nat) :=
  match s with
  | EmptyString =>
      inl (JSONDecodeError "Unterminated string starting at" start)
  | String c tl =>
      if char_eqb c dquote then inr (EmptyString, tl, S pos)
      else if char_eqb c "\" then
        match tl with
        | EmptyString =>
            inl (JSONDecodeError "Unterminated string starting at" start)
        | String e tl2 =>
            if char_eqb e "u" then
              match tl2 with
              | String h1 (String h2 (String h3 (String h4 tl6))) =>
                  match unicode_escape h1 h2 h3 h4 with
                  | Some ch =>
                      match scan_string tl6 (pos + 6) start with
                      | inr (body, rest, p) => inr (String ch body, rest, p)
                      | inl e => inl e
                      end
                  | None =>
                      inl (JSONDecodeError "Invalid \uXXXX escape" (S pos))
                  end
              | _ => inl (JSONDecodeError "Invalid \uXXXX escape" (S pos))
              end
            else
              match simple_escape e with
              | Some ch =>
                  match scan_string tl2 (pos + 2) start with
                  | inr (body, rest, p) => inr (String ch body, rest, p)
                  | inl e => inl e
                  end
              | None => inl (JSONDecodeError "Invalid \escape" pos)
              end
        end
      else if (code c <? 32)%N then
        inl (JSONDecodeError "Invalid control character at" pos)
      else
        match scan_string tl (S pos) start with
        | inr (body, rest, p) => inr (String c body, rest, p)
        | inl e => inl e
        end
  end.

(** [NUMBER_RE]: an optional minus, then 0 or a digit string not starting
    with 0, then an optional fraction [\.\d+], then an optional exponent
    [[eE][-+]?\d+].  Without fraction and exponent the number is an [int]. *)
Definition scan_number (s : string) : option (json * string * nat) :=
  let '(neg, body) :=
    match s with
    | String c tl => if char_eqb c "-" then (true, tl) else (false, s)
    | EmptyString => (false, s)
    end in
  let '(ip, r1) :=
    match body with
    | String c tl =>
        if char_eqb c "0" then (String c EmptyString, tl)
        else span_digits body
    | EmptyString => (EmptyString, body)
    end in
  if String.eqb ip EmptyString then None
  else
    let '(fp, r2) :=
      match r1 with
      | String c tl =>
          if char_eqb c "." then
            match span_digits tl with
            | (EmptyString, _) => (EmptyString, r1)
            | (ds, rest) => (ds, rest)
            end
          else (EmptyString, r1)
      | EmptyString => (EmptyString, r1)
      end in
    let '(ex, r3) :=
      match r2 with
      | String c tl =>
          if char_eqb (lower_char c) "e" then
            let '(eneg, ebody) := split_sign tl in
            match span_digits ebody with
            | (EmptyString, _) => (None, r2)
            | (ds, rest) =>
                (Some (if eneg then (- digits_val 0 ds)%Z
                       else digits_val 0 ds), rest)
            end
          else (None, r2)
      | EmptyString => (None, r2)
      end in
    let consumed := String.length s - String.length r3 in
    match fp, ex with
    | EmptyString, None =>
        let v := digits_val 0 ip in
        Some (JInt (if neg then (- v)%Z else v), r3, consumed)
    | _, _ =>
        Some (JFloat (dec_float neg ip fp (default 0%Z ex)), r3, consumed)
    end.

Definition literal (word : string) (value : json) (s : string) (pos : nat)
    : option (json * string * nat) :=
  if String.prefix word s
  then Some (value, String.substring (String.length word)
                      (String.length s - String.length word) s,
             pos + String.length word)
  else None.

(** The scanner [scan_once] with the object and array loops.  Every step
    consumes a character, so a fuel above the length of the text is never
    exhausted; Python's recursion limit is not modelled. *)
Fixpoint scan_once (fuel : nat) (s : string) (pos : nat)
    : pyexn + (json * string * nat) :=
  match fuel with
  | 0 => inl (RuntimeError "maximum recursion depth exceeded")
  | S fuel' =>
      match s with
      | EmptyString => inl (JSONDecodeError "Expecting value" pos)
      | String c tl =>
          if char_eqb c dquote then
            match scan_string tl (S pos) pos with
            | inr (str, rest, p) => inr (JStr str, rest, p)
            | inl e => inl e
            end
          else if char_eqb c "{" then
            let '(s1, p1) := skip_ws tl (S pos) in
            match s1 with
            | String c1 tl1 =>
                if char_eqb c1 "}" then inr (JDict [], tl1, S p1)
                else
                  match scan_members fuel' s1 p1 with
                  | inr (pairs, rest, p) =>
                      inr (JDict (dict_of_pairs pairs), rest, p)
                  | inl e => inl e
                  end
            | EmptyString =>
                inl (JSONDecodeError
                       "Expecting property name enclosed in double quotes" p1)
            end
          else if char_eqb c "[" then
            let '(s1, p1) := skip_ws tl (S pos) in
            match s1 with
            | String c1 tl1 =>
                if char_eqb c1 "]" then inr (JList [], tl1, S p1)
                else
                  match scan_elements fuel' s1 p1 with
                  | inr (items, rest, p) => inr (JList items, rest, p)
                  | inl e => inl e
                  end
            | EmptyString => inl (JSONDecodeError "Expecting value" p1)
            end
          else
            let attempts :=
              [ literal "null" JNull s pos;
                literal "true" (JBool true) s pos;
                literal "false" (JBool false) s pos;
                match scan_number s with
                | Some (v, rest, n) => Some (v, rest, pos + n)
                | None => None
                end;
                literal "NaN" (JFloat FNan) s pos;
                literal "Infinity" (JFloat (FInf false)) s pos;
                literal "-Infinity" (JFloat (FInf true)) s pos ] in
            match List.find (fun a => bool_decide (is_Some a)) attempts with
            | Some (Some r) => inr r
            | _ => inl (JSONDecodeError "Expecting value" pos)
            end
      end
  end

with scan_members (fuel : nat) (s : string) (pos : nat)
    : pyexn + (list (string * json) * string * nat) :=
  match fuel with
  | 0 => inl (RuntimeError "maximum recursion depth exceeded")
  | S fuel' =>
      match s with
      | String c tl =>
          if char_eqb c dquote then
            match scan_string tl (S pos) pos with
            | inl e => inl e
            | inr (key, r1, p1) =>
                let '(r2, p2) := skip_ws r1 p1 in
                match r2 with
                | String c2 tl2 =>
                    if char_eqb c2 ":" then
                      let '(r3, p3) := skip_ws tl2 (S p2) in
                      match scan_once fuel' r3 p3 with
                      | inl e => inl e
                      | inr (value, r4, p4) =>
                          let '(r5, p5) := skip_ws r4 p4 in
                          match r5 with
                          | String c5 tl5 =>
                              if char_eqb c5 "}" then
                                inr ([(key, value)], tl5, S p5)
                              else if char_eqb c5 "," then
                                let '(r6, p6) := skip_ws tl5 (S p5) in
                                match scan_members fuel' r6 p6 with
                                | inr (pairs, rest, p) =>
                                    inr ((key, value) :: pairs, rest, p)
                                | inl e => inl e
                                end
                              else
                                inl (JSONDecodeError
                                       "Expecting ',' delimiter" p5)
                          | EmptyString =>
                              inl (JSONDecodeError
                                     "Expecting ',' delimiter" p5)
                          end
                      end
                    else inl (JSONDecodeError "Expecting ':' delimiter" p2)
                | EmptyString =>
                    inl (JSONDecodeError "Expecting ':' delimiter" p2)
                end
            end
          else
            inl (JSONDecodeError
                   "Expecting property name enclosed in double quotes" pos)
      | EmptyString =>
          inl (JSONDecodeError
                 "Expecting property name enclosed in double quotes" pos)
      end
  end

with scan_elements (fuel : nat) (s : string) (pos : nat)
    : pyexn + (list json * string * nat) :=
  match fuel with
  | 0 => inl (RuntimeError "maximum recursion depth exceeded")
  | S fuel' =>
      match scan_once fuel' s pos with
      | inl e => inl e
      | inr (value, r1, p1) =>
          let '(r2, p2) := skip_ws r1 p1 in
          match r2 with
          | String c tl =>
              if char_eqb c "]" then inr ([value], tl, S p2)
              else if char_eqb c "," then
                let '(r3, p3) := skip_ws tl (S p2) in
                match scan_elements fuel' r3 p3 with
                | inr (items, rest, p) => inr (value :: items, rest, p)
                | inl e => inl e
                end
              else inl (JSONDecodeError "Expecting ',' delimiter" p2)
          | EmptyString => inl (JSONDecodeError "Expecting ',' delimiter" p2)
          end
      end
  end.

Definition raw_loads (text : string) : pyexn + json :=
  let '(s0, p0) := skip_ws text 0 in
  match scan_once (2 * String.length text + 2) s0 p0 with
  | inl e => inl e
  | inr (value, rest, p) =>
      match skip_ws rest p with
      | (EmptyString, _) => inr value
      | (_, p') => inl (JSONDecodeError "Extra data" p')
      end
  end.

Definition show_nat (n : nat) : string :=
  NilEmpty.string_of_uint (Nat.to_uint n).

(** Line and column of a position, both counted from 1. *)
Fixpoint line_col (doc : string) (pos line col : nat) : nat * nat :=
  match pos, doc with
  | S pos', String c tl =>
      if char_eqb c newline then line_col tl pos' (S line) 1
      else line_col tl pos' line (S col)
  | _, _ => (line, col)
  end.

(** The message of a [JSONDecodeError]: what went wrong and where. *)
Definition located (doc : string) (e : pyexn) : pyexn :=
  match e with
  | JSONDecodeError msg pos =>
      let '(line, col) := line_col doc pos 1 1 in
      JSONDecodeError
        (msg +:+ ": line " +:+ show_nat line +:+ " column " +:+ show_nat col
             +:+ " (char " +:+ show_nat pos +:+ ")") pos
  | _ => e
  end.

(** [json.loads(s)] *)
Definition loads (text : string) : pyexn + json :=
  match raw_loads text with
  | inl e => inl (located text e)
  | inr value => inr value
  end.

End Json.

(** ** The dynamic operations of Python on JSON values *)

Module Dyn.

Import Json.

(** [try: body  except <caught>: handler] *)
Definition try_except {A} (body : pyexn + A) (caught : pyexn -> bool)
    (handler : pyexn -> pyexn + A) : pyexn + A :=
  match body with
  | inl e => if caught e then handler e else inl e
  | inr a => inr a
  end.

Definition type_name (j : json) : string :=
  match j with
  | JNull => "NoneType"
  | JBool _ => "bool"
  | JInt _ => "int"
  | JFloat _ => "float"
  | JStr _ => "str"
  | JList _ => "list"
  | JDict _ => "dict"
  end.

(** [isinstance(j, str)], [isinstance(j, int)] ([bool] is a subclass of
    [int]), [isinstance(j, (int, float))], [isinstance(j, dict)],
    [j is None]. *)
Definition is_str (j : json) : bool :=
  match j with JStr _ => true | _ => false end.
Definition is_int (j : json) : bool :=
  match j with JInt _ | JBool _ => true | _ => false end.
Definition is_number (j : json) : bool :=
  match j with JInt _ | JBool _ | JFloat _ => true | _ => false end.
Definition is_dict (j : json) : bool :=
  match j with JDict _ => true | _ => false end.
Definition is_none (j : json) : bool :=
  match j with JNull => true | _ => false end.

Definition is_the_str (key : string) (j : json) : bool :=
  match j with
  | JStr x => String.eqb x key
  | _ => false
  end.

(** [key in j] for a string [key]: a key of a dict, an element of a list,
    a substring of a string; the other values are not containers. *)
Definition py_in (key : string) (j : json) : pyexn + bool :=
  match j with
  | JDict items => inr (bool_decide (is_Some (dict_get key items)))
  | JList items => inr (existsb (is_the_str key) items)
  | JStr x => inr (contains key x)
  | _ => inl (TypeError ("argument of type '" +:+ type_name j
                           +:+ "' is not iterable"))
  end.

(** [j[key]] for a string [key]. *)
Definition py_getitem (j : json) (key : string) : pyexn + json :=
  match j with
  | JDict items =>
      match dict_get key items with
      | Some v => inr v
      | None => inl (KeyError key)
      end
  | JList _ => inl (TypeError "list indices must be integers or slices, not str")
  | JStr _ => inl (TypeError "string indices must be integers, not 'str'")
  | _ => inl (TypeError ("'" +:+ type_name j +:+ "' object is not subscriptable"))
  end.

(** [len(j)] *)
Definition py_len (j : json) : pyexn + nat :=
  match j with
  | JDict items => inr (length items)
  | JList items => inr (length items)
  | JStr x => inr (String.length x)
  | _ => inl (TypeError ("object of type '" +:+ type_name j +:+ "' has no len()"))
  end.

Fixpoint chars (x : string) : list json :=
  match x with
  | EmptyString => []
  | String c tl => JStr (String c EmptyString) :: chars tl
  end.

(** What [for field in j] goes through. *)
Definition py_iter (j : json) : pyexn + list json :=
  match j with
  | JDict items => inr (map (fun p => JStr (fst p)) items)
  | JList items => inr items
  | JStr x => inr (chars x)
  | _ => inl (TypeError ("'" +:+ type_name j +:+ "' object is not iterable"))
  end.

(** [float(j)] *)
Definition py_float (j : json) : pyexn + pyfloat :=
  match j with
  | JInt z => Num.float_of_int z
  | JBool b => inr (of_Z (if b then 1 else 0))
  | JFloat f => inr f
  | JStr x => Num.float_of_str x
  | _ => inl (TypeError ("float() argument must be a string or a real number, not '"
                           +:+ type_name j +:+ "'"))
  end.

(** The value of a number, for [<] and [>]. *)
Definition number_value (j : json) : pyfloat :=
  match j with
  | JInt z => of_Z z
  | JBool b => of_Z (if b then 1 else 0)
  | JFloat f => f
  | _ => FNan
  end.

(** [str(j).lower() in candidates].  Only a string can be displayed as one
    of the candidate words used by the agent (plain lower-case words): a
    number, [True], [False], [None], a list or a dict never reads so. *)
Definition lower_str_in (j : json) (candidates : list string) : bool :=
  match j with
  | JStr x => existsb (String.eqb (lower x)) candidates
  | _ => false
  end.

Definition ends_with (suffix x : string) : bool :=
  String.prefix (rev_string EmptyString suffix) (rev_string EmptyString x).

(** [field.endswith(suffix)] for whatever the iteration yields. *)
Definition py_endswith (field : json) (suffix : string) : pyexn + bool :=
  match field with
  | JStr x => inr (ends_with suffix x)
  | _ => inl (AttributeError ("'" +:+ type_name field
                                +:+ "' object has no attribute 'endswith'"))
  end.

(** [x.replace(c, by)] for a single character [c]. *)
Fixpoint replace_char (c : ascii) (by_ : string) (x : string) : string :=
  match x with
  | EmptyString => EmptyString
  | String e tl =>
      if char_eqb c e then by_ +:+ replace_char c by_ tl
      else String e (replace_char c by_ tl)
  end.

Definition is_value_error (e : pyexn) : bool :=
  match e with
  | ValueError _ | JSONDecodeError _ _ => true
  | _ => false
  end.

Definition is_type_error (e : pyexn) : bool :=
  match e with TypeError _ => true | _ => false end.

Definition is_json_decode_error (e : pyexn) : bool :=
  match e with JSONDecodeError _ _ => true | _ => false end.

End Dyn.

(** ** agents/json_agent.py *)

Module JSONAgent.

Import Json Dyn.

(** [for x in xs: acc = step(acc, x)], stopping at the first exception. *)
Fixpoint for_each {A B} (step : B -> A -> pyexn + B) (xs : list A) (acc : B)
    : pyexn + B :=
  match xs with
  | [] => inr acc
  | x :: rest => let* acc' := step acc x in for_each step rest acc'
  end.

(** [any(field in json_data for field in fields)]: the generator stops at
    the first field that is present. *)
Fixpoint any_field_in (fields : list string) (json_data : json)
    : pyexn + bool :=
  match fields with
  | [] => inr false
  | field :: rest =>
      let* present := py_in field json_data in
      if present then inr true else any_field_in rest json_data
  end.

(** [self.webhook_schemas]: required fields, then optional fields. *)
Definition webhook_schemas : list (string * (list string * list string)) :=
  [ ("payment", (["transaction_id"; "amount"; "currency"; "status"],
                 ["user_id"; "timestamp"; "method"]));
    ("user_event", (["user_id"; "event_type"; "timestamp"],
                    ["data"; "session_id"; "ip_address"]));
    ("order", (["order_id"; "customer_id"; "items"; "total"],
               ["shipping_address"; "billing_address"; "status"]));
    ("system_alert", (["alert_type"; "severity"; "message"; "timestamp"],
                      ["source"; "details"; "correlation_id"])) ].

Definition _detect_webhook_type (json_data : json) : pyexn + string :=
  if negb (is_dict json_data) then inr "unknown"
  else
    let* payment := any_field_in ["transaction_id"; "payment_id"; "amount"; "currency"]
                           json_data in
    if payment then inr "payment" else
    let* user_event := any_field_in ["user_id"; "event_type"; "session_id"] json_data in
    if user_event then inr "user_event" else
    let* order := any_field_in ["order_id"; "customer_id"; "items"] json_data in
    if order then inr "order" else
    let* system_alert := any_field_in ["alert_type"; "severity"; "message"] json_data in
    if system_alert then inr "system_alert" else
    inr "generic".

Definition _validate_field_types (json_data : json) (errors : list string)
    : pyexn + list string :=
  let* has_amount := py_in "amount" json_data in
  let* errors :=
    (if has_amount then
       let* amount := py_getitem json_data "amount" in
       inr (if negb (is_number amount)
            then errors ++ ["Field 'amount' should be numeric"]
            else errors)
     else inr errors) in
  let* has_timestamp := py_in "timestamp" json_data in
  let* errors :=
    (if has_timestamp then
       let* timestamp := py_getitem json_data "timestamp" in
       inr (if negb (is_str timestamp || is_number timestamp)
            then errors ++ ["Field 'timestamp' should be string or number"]
            else errors)
     else inr errors) in
  let* fields := py_iter json_data in
  for_each
    (fun errors field =>
       let* is_id := py_endswith field "_id" in
       if is_id then
         match field with
         | JStr name =>
             let* value := py_getitem json_data name in
             inr (if negb (is_str value || is_int value)
                  then errors ++ ["ID field '" +:+ name
                                    +:+ "' should be string or number"]
                  else errors)
         | _ => inr errors
         end
       else inr errors)
    fields errors.

Definition _validate_schema (json_data : json) (webhook_type : string)
    : pyexn + (bool * list string) :=
  match dict_get webhook_type webhook_schemas with
  | None => inr (true, [])
  | Some schema =>
      let* errors :=
        for_each
          (fun errors field =>
             let* present := py_in field json_data in
             if negb present
             then inr (errors ++ ["Missing required field: " +:+ field])
             else
               let* value := py_getitem json_data field in
               inr (if is_none value
                    then errors ++ ["Required field '" +:+ field +:+ "' is null"]
                    else errors))
          (fst schema) [] in
      let* errors := _validate_field_types json_data errors in
      inr (bool_decide (length errors = 0), errors)
  end.

Section Anomalies.

(** Whether [datetime.fromisoformat] accepts a text.  The accepted formats
    depend on the Python version, so the parser is a parameter. *)
Variable fromisoformat_ok : string -> bool.

Definition fromisoformat (text : string) : pyexn + unit :=
  if fromisoformat_ok text then inr tt
  else inl (ValueError ("Invalid isoformat string: " +:+ text)).

Definition _detect_anomalies (json_data : json) (webhook_type : string)
    : pyexn + list string :=
  let anomalies : list string := [] in
  (* suspicious amounts *)
  let* has_amount := py_in "amount" json_data in
  let* anomalies :=
    (if has_amount then
       try_except
         (let* value := py_getitem json_data "amount" in
          let* amount := py_float value in
          inr (if flt amount (of_Z 0) then anomalies ++ ["negative_amount"]
               else if fgt amount (of_Z 100000)
                    then anomalies ++ ["unusually_high_amount"]
                    else anomalies))
         (fun e => is_value_error e || is_type_error e)
         (fun _ => inr (anomalies ++ ["invalid_amount_format"]))
     else inr anomalies) in
  (* unusual timestamps *)
  let* has_timestamp := py_in "timestamp" json_data in
  let* anomalies :=
    (if has_timestamp then
       try_except
         (let* timestamp := py_getitem json_data "timestamp" in
          match timestamp with
          | JStr text =>
              let* _ := fromisoformat (replace_char "Z" "+00:00" text) in
              inr anomalies
          | _ =>
              if is_number timestamp then
                inr (if flt (number_value timestamp) (of_Z 0)
                        || fgt (number_value timestamp) (of_Z 2147483647)
                     then anomalies ++ ["invalid_timestamp_range"]
                     else anomalies)
              else inr anomalies
          end)
         is_value_error
         (fun _ => inr (anomalies ++ ["malformed_timestamp"]))
     else inr anomalies) in
  (* empty required arrays *)
  let* has_items :=
    (if String.eqb webhook_type "order" then py_in "items" json_data
     else inr false) in
  let* anomalies :=
    (if has_items then
       let* items := py_getitem json_data "items" in
       match items with
       | JList [] => inr (anomalies ++ ["empty_items_array"])
       | _ => inr anomalies
       end
     else inr anomalies) in
  (* suspicious field values *)
  let* has_status := py_in "status" json_data in
  let* anomalies :=
    (if has_status then
       let* status := py_getitem json_data "status" in
       inr (if lower_str_in status ["test"; "debug"; "fake"; "dummy"]
            then anomalies ++ ["suspicious_status_value"]
            else anomalies)
     else inr anomalies) in
  inr anomalies.

End Anomalies.

Definition important_fields : list string :=
  [ "user_id"; "customer_id"; "transaction_id"; "order_id";
    "amount"; "currency"; "status"; "timestamp"; "event_type" ].

(** [_extract_fields], without the entry [payload_size] (the length of
    Python's display of the payload, which no other part of the agent
    reads). *)
Definition _extract_fields (json_data : json) : pyexn + list (string * json) :=
  let* extracted :=
    for_each
      (fun extracted field =>
         let* present := py_in field json_data in
         if present then
           let* value := py_getitem json_data field in
           inr (dict_set field value extracted)
         else inr extracted)
      important_fields [] in
  let* has_data := py_in "data" json_data in
  let* extracted :=
    (if has_data then
       let* data := py_getitem json_data "data" in
       match data with
       | JDict items =>
           inr (dict_set "nested_data_keys"
                  (JList (map (fun p => JStr (fst p)) items)) extracted)
       | _ => inr extracted
       end
     else inr extracted) in
  let* count := py_len json_data in
  inr (dict_set "field_count" (JInt (Z.of_nat count)) extracted).

Definition is_financial (anomaly : string) : bool :=
  existsb (String.eqb anomaly) ["negative_amount"; "unusually_high_amount"].

Definition _recommend_actions (anomalies : list string) (schema_valid : bool)
    : list string :=
  let actions : list string := [] in
  let actions :=
    if negb schema_valid
    then actions ++ ["log_schema_violation"; "notify_integration_team"]
    else actions in
  match anomalies with
  | _ :: _ =>
      let actions :=
        if existsb is_financial anomalies
        then actions ++ ["flag_financial_review"] else actions in
      let actions :=
        if existsb (String.eqb "malformed_timestamp") anomalies
        then actions ++ ["log_data_quality_issue"] else actions in
      let actions :=
        if 2 <? length anomalies
        then actions ++ ["quarantine_for_review"] else actions in
      actions
  | [] => actions ++ ["process_normally"]
  end.

Record JSONData : Type := {
  webhook_type : string;
  payload : json;
  schema_valid : bool;
  validation_errors : list string;
  anomalies : list string;
  extracted_fields : list (string * json)
}.

Record AgentResult : Type := {
  agent : string;
  json_data : JSONData;
  recommended_actions : list string;
  processing_metadata : list (string * json)
}.

Definition name : string := "JSONAgent".

(** [JSONAgent.process].  [confidence] is [classification.confidence_score].
    The call of [log_decision] only writes to the shared store, whose
    methods catch every exception, so it neither changes the result nor
    raises. *)
Definition process (fromisoformat_ok : string -> bool) (input_data : string)
    (confidence : Q) : pyexn + AgentResult :=
  try_except
    (let* json_data := loads input_data in
     let* webhook_type := _detect_webhook_type json_data in
     let* '(schema_valid, validation_errors) :=
       _validate_schema json_data webhook_type in
     let* anomalies := _detect_anomalies fromisoformat_ok json_data webhook_type in
     let* extracted_fields := _extract_fields json_data in
     inr {| agent := name;
            json_data :=
              {| webhook_type := webhook_type;
                 payload := json_data;
                 schema_valid := schema_valid;
                 validation_errors := validation_errors;
                 anomalies := anomalies;
                 extracted_fields := extracted_fields |};
            recommended_actions := _recommend_actions anomalies schema_valid;
            processing_metadata :=
              [ ("parsed_successfully", JBool true);
                ("field_count",
                 JInt (match json_data with
                       | JDict items => Z.of_nat (length items)
                       | _ => 0%Z
                       end));
                ("confidence", JFloat (FFin confidence)) ] |})
    is_json_decode_error
    (fun e =>
       inr {| agent := name;
              json_data :=
                {| webhook_type := "invalid";
                   payload := JDict [];
                   schema_valid := false;
                   validation_errors := ["JSON Parse Error: " +:+ exn_str e];
                   anomalies := ["malformed_json"];
                   extracted_fields := [] |};
              recommended_actions := ["log_error"; "alert_admin"];
              processing_metadata :=
                [ ("parsed_successfully", JBool false);
                  ("error", JStr (exn_str e));
                  ("confidence", JFloat (FFin 0)) ] |}).

End JSONAgent.

(** ** agents/pdf_agent.py *)

Module PDFAgent.

Import Re.

Definition compliance_keywords : list string :=
  [ "gdpr"; "fda"; "sox"; "hipaa"; "pci"; "compliance";
    "regulation"; "policy"; "audit"; "security" ].

(** [\d+(?:,\d{3})*(?:\.\d{2})?], the amount captured by the patterns. *)
Definition amount_re : regex :=
  RSeq [ RPlus d;
         RStar (RCat (RLit ",") (RTimes 3 d));
         ROpt (RCat (RLit ".") (RTimes 2 d)) ].

(** [self.invoice_patterns["total"]]: the amount after [total] and after
    [amount due], each followed by colons or blanks and an optional dollar
    sign.  (The other entries of the table serve [_extract_general_fields].) *)
Definition total_pattern : regex :=
  RSeq [ RStr "total"; RPlus (RSet [CLit ":"; CSpace]); ROpt (RLit "$");
         RGroup 1 amount_re ].

Definition amount_due_pattern : regex :=
  RSeq [ RStr "amount due"; RPlus (RSet [CLit ":"; CSpace]); ROpt (RLit "$");
         RGroup 1 amount_re ].

Definition total_patterns : list regex := [total_pattern; amount_due_pattern].

(** [(\d+)\s+(.+?)\s+\$?(amount)] *)
Definition line_pattern : regex :=
  RSeq [ RGroup 1 (RPlus d); RPlus s; RGroup 2 (RLazyPlus RDot); RPlus s;
         ROpt (RLit "$"); RGroup 3 amount_re ].

Definition _determine_document_type (text : string) : string :=
  let text_lower := lower text in
  if any_in ["invoice"; "bill"; "payment"; "amount due"] text_lower
  then "invoice"
  else if any_in ["policy"; "regulation"; "compliance"; "gdpr"; "fda"] text_lower
  then "policy"
  else if any_in ["contract"; "agreement"; "terms"] text_lower
  then "contract"
  else if any_in ["report"; "analysis"; "summary"] text_lower
  then "report"
  else "document".

(** The loop over the total patterns: the first pattern that matches and
    whose capture converts ends the loop; a [ValueError] moves on. *)
Fixpoint extract_total (patterns : list regex) (text : string)
    : option pyfloat :=
  match patterns with
  | [] => None
  | pattern :: rest =>
      match search true pattern text with
      | Some m =>
          let amount_str := remove_char "," (group 1 m) in
          match Num.float_of_str amount_str with
          | inr total_amount => Some total_amount
          | inl _ => extract_total rest text
          end
      | None => extract_total rest text
      end
  end.

Record line_item : Type := {
  quantity : Z;
  description : string;
  amount : pyfloat
}.

(** The loop over the line matches; a [ValueError] skips the match. *)
Fixpoint extract_lines (matches : list rmatch_obj) : list line_item :=
  match matches with
  | [] => []
  | m :: rest =>
      match Num.int_of_str (group 1 m),
            Num.float_of_str (remove_char "," (group 3 m)) with
      | inr q, inr a =>
          {| quantity := q; description := strip (group 2 m); amount := a |}
            :: extract_lines rest
      | _, _ => extract_lines rest
      end
  end.

Definition _extract_invoice_data (text : string)
    : list line_item * option pyfloat :=
  let total_amount := extract_total total_patterns text in
  let line_items := extract_lines (findall false line_pattern text) in
  (line_items, total_amount).

(** [BaseAgent.extract_keywords] *)
Definition extract_keywords (text : string) (keywords : list string)
    : list string :=
  let text_lower := lower text in
  filter (fun keyword => contains (lower keyword) text_lower = true) keywords.

(** Truth value of an optional float: [None] and zero are false. *)
Definition truthy (total_amount : option pyfloat) : bool :=
  match total_amount with
  | None => false
  | Some (FFin q) => negb (Qeq_bool q 0)
  | Some _ => true
  end.

Definition exceeds (total_amount : option pyfloat) (bound : Z) : bool :=
  match total_amount with
  | Some f => fgt f (of_Z bound)
  | None => false
  end.

(** [\b\d{3}-\d{2}-\d{4}\b] *)
Definition ssn_pattern : regex :=
  RSeq [ RWordB; RTimes 3 d; RLit "-"; RTimes 2 d; RLit "-"; RTimes 4 d;
         RWordB ].

(** [\b\d{4}[- ]?\d{4}[- ]?\d{4}[- ]?\d{4}\b] *)
Definition card_pattern : regex :=
  let sep := ROpt (RSet [CLit "-"; CLit " "]) in
  RSeq [ RWordB; RTimes 4 d; sep; RTimes 4 d; sep; RTimes 4 d; sep;
         RTimes 4 d; RWordB ].

(** [urgent|asap|immediate|critical] *)
Definition urgent_pattern : regex :=
  RWords ["urgent"; "asap"; "immediate"; "critical"].

Definition _check_compliance_flags (text : string) (document_type : string)
    (total_amount : option pyfloat) : list string :=
  let flags : list string := [] in
  let text_lower := lower text in
  let flags :=
    if String.eqb document_type "invoice" && truthy total_amount
       && exceeds total_amount 10000
    then flags ++ ["high_value_invoice"] else flags in
  let found_compliance := extract_keywords text compliance_keywords in
  let flags :=
    match found_compliance with
    | _ :: _ =>
        (flags ++ ["compliance_document"])
          ++ map (fun keyword => "contains_" +:+ lower keyword) found_compliance
    | [] => flags
    end in
  let flags :=
    if contains "gdpr" text_lower then flags ++ ["gdpr_related"] else flags in
  let flags :=
    if contains "fda" text_lower then flags ++ ["fda_related"] else flags in
  let flags :=
    if contains "sox" text_lower then flags ++ ["sox_compliance"] else flags in
  let flags :=
    if found false ssn_pattern text then flags ++ ["contains_ssn"] else flags in
  let flags :=
    if found false card_pattern text
    then flags ++ ["contains_credit_card"] else flags in
  let flags :=
    if found false urgent_pattern text_lower
    then flags ++ ["urgent_document"] else flags in
  flags.

Definition has (flag : string) (flags : list string) : bool :=
  existsb (String.eqb flag) flags.

Definition _recommend_actions (flags : list string)
    (total_amount : option pyfloat) (document_type : string) : list string :=
  let actions : list string := [] in
  let actions :=
    if has "high_value_invoice" flags
    then actions ++ ["require_manager_approval"; "flag_financial_review"]
    else actions in
  let actions :=
    if has "compliance_document" flags
    then actions ++ ["route_to_compliance_team"; "log_regulatory_document"]
    else actions in
  let actions :=
    if has "gdpr_related" flags
    then actions ++ ["notify_data_protection_officer"; "ensure_gdpr_compliance"]
    else actions in
  let actions :=
    if has "fda_related" flags
    then actions ++ ["route_to_regulatory_affairs"; "maintain_fda_audit_trail"]
    else actions in
  let actions :=
    if has "contains_ssn" flags || has "contains_credit_card" flags
    then actions ++ ["encrypt_and_secure"; "limit_access_permissions"]
    else actions in
  let actions :=
    if has "urgent_document" flags
    then actions ++ ["prioritize_processing"; "notify_relevant_teams"]
    else actions in
  match actions with
  | [] => ["standard_document_processing"; "archive_after_processing"]
  | _ => actions
  end.

Record PDFData : Type := {
  document_type : string;
  extracted_text : string;
  line_items : list line_item;
  total_amount : option pyfloat;
  flags : list string
}.

Record AgentResult : Type := {
  agent : string;
  pdf_data : PDFData;
  recommended_actions : list string
}.

(** [PDFAgent.process], without the dictionary built by
    [_extract_general_fields] and without the processing metadata, which
    no decision of the agent reads. *)
Definition process (input_data : string) : AgentResult :=
  let extracted_text := input_data in
  let document_type := _determine_document_type extracted_text in
  let '(line_items, total_amount) :=
    if String.eqb document_type "invoice"
    then _extract_invoice_data extracted_text
    else ([], None) in
  let flags := _check_compliance_flags extracted_text document_type total_amount in
  {| agent := "PDFAgent";
     pdf_data :=
       {| document_type := document_type;
          extracted_text :=
            if 500 <? String.length extracted_text
            then slice_to 500 extracted_text +:+ "..."
            else extracted_text;
          line_items := line_items;
          total_amount := total_amount;
          flags := flags |};
     recommended_actions := _recommend_actions flags total_amount document_type |}.

(** [\$(\d+(?:,\d{3})*(?:\.\d{2})?)], the pattern of the amounts collected
    by [_extract_general_fields]. *)
Definition dollar_amount : regex := RSeq [ RLit "$"; RGroup 1 amount_re ].

(** [[f(x) for x in xs]]: the first exception ends the comprehension. *)
Fixpoint comprehension {A B} (f : A -> pyexn + B) (xs : list A)
    : pyexn + list B :=
  match xs with
  | [] => inr []
  | x :: rest =>
      match f x with
      | inl e => inl e
      | inr y =>
          match comprehension f rest with
          | inl e => inl e
          | inr ys => inr (y :: ys)
          end
      end
  end.

(** The amounts of [_extract_general_fields]: the value stored under
    [amounts_found], [None] when the key is not set.  The conversions stand
    outside any [try]. *)
Definition amounts_found (text : string) : pyexn + option (list pyfloat) :=
  let amounts := map (group 1) (findall false dollar_amount text) in
  match amounts with
  | [] => inr None
  | _ :: _ =>
      match comprehension
              (fun amt => Num.float_of_str (remove_char "," amt))
              (firstn 10 amounts) with
      | inl e => inl e
      | inr values => inr (Some values)
      end
  end.

End PDFAgent.

(** ** memory/shared_memory.py

    Redis is modelled as the state it holds: hashes and lists by key.  The
    record kept under [memory:<id>] has the fields [data] and [status]; the
    JSON text of [data] is represented by the entry it encodes, and the
    field [created_at] (a wall-clock reading) is left out.  The server is
    assumed to answer every command. *)

Module Store.

Import Json.

Record MemoryEntry : Type := {
  id : string;
  input_metadata : list (string * json);
  classification : Classifier.ClassificationResult;
  agent_outputs : list (string * json);
  actions_triggered : list string;
  decision_trace : list string;
  timestamp : string;
  status : string
}.

Record hash_value : Type := {
  h_data : MemoryEntry;
  h_status : string
}.

Record redis : Type := {
  hashes : gmap string hash_value;
  lists : gmap string (list string)
}.

Definition empty : redis := {| hashes := ∅; lists := ∅ |}.

(** [HSET key mapping], all fields of the record at once. *)
Definition hset (key : string) (value : hash_value) (r : redis) : redis :=
  {| hashes := <[key := value]> (hashes r); lists := lists r |}.

(** [HGET key "data"] *)
Definition hget_data (key : string) (r : redis) : option MemoryEntry :=
  h_data <$> hashes r !! key.

(** [LPUSH key value]: the value becomes the head of the list. *)
Definition lpush (key value : string) (r : redis) : redis :=
  {| hashes := hashes r;
     lists := <[key := value :: default [] (lists r !! key)]> (lists r) |}.

(** [LRANGE key start stop]: both ends included, negative indices count
    from the tail, indices out of range are clipped. *)
Definition lrange (key : string) (start stop : Z) (r : redis) : list string :=
  let l := default [] (lists r !! key) in
  let n := Z.of_nat (length l) in
  let a := if (start <? 0)%Z then Z.max 0 (n + start) else start in
  let b := if (stop <? 0)%Z then (n + stop)%Z else Z.min stop (n - 1) in
  if ((b <? a) || (n <=? a))%Z then []
  else take (Z.to_nat (b - a + 1)) (drop (Z.to_nat a) l).

Definition memory_key (entry_id : string) : string := "memory:" +:+ entry_id.

Definition store_entry (entry : MemoryEntry) (r : redis) : string * redis :=
  let r := hset (memory_key (id entry))
                {| h_data := entry; h_status := status entry |} r in
  let r := lpush "processing_queue" (id entry) r in
  (id entry, r).

Definition get_entry (entry_id : string) (r : redis) : option MemoryEntry :=
  hget_data (memory_key entry_id) r.

(** [update_entry]: [updates] stands for [entry_dict.update(updates)]. *)
Definition update_entry (entry_id : string)
    (updates : MemoryEntry -> MemoryEntry) (r : redis) : bool * redis :=
  match get_entry entry_id r with
  | None => (false, r)
  | Some entry =>
      let updated_entry := updates entry in
      (true, snd (store_entry updated_entry r))
  end.

Definition set_actions_triggered (actions : list string) (e : MemoryEntry)
    : MemoryEntry :=
  {| id := id e; input_metadata := input_metadata e;
     classification := classification e; agent_outputs := agent_outputs e;
     actions_triggered := actions; decision_trace := decision_trace e;
     timestamp := timestamp e; status := status e |}.

Definition add_action_triggered (entry_id action : string) (r : redis)
    : bool * redis :=
  match get_entry entry_id r with
  | Some entry =>
      update_entry entry_id
        (set_actions_triggered (actions_triggered entry ++ [action])) r
  | None => (false, r)
  end.

Definition get_processing_queue (r : redis) : list string :=
  lrange "processing_queue" 0 (-1) r.

(** A run of [store_entry] calls, one per entry, in the order given. *)
Definition store_all (entries : list MemoryEntry) (r : redis) : redis :=
  fold_left (fun r entry => snd (store_entry entry r)) entries r.

Definition set_outputs_and_trace (outputs : list (string * json))
    (trace : list string) (e : MemoryEntry) : MemoryEntry :=
  {| id := id e; input_metadata := input_metadata e;
     classification := classification e; agent_outputs := outputs;
     actions_triggered := actions_triggered e; decision_trace := trace;
     timestamp := timestamp e; status := status e |}.

(** [add_agent_output]; [now] is the reading of the clock written into the
    trace line. *)
Definition add_agent_output (entry_id agent_name : string) (output : json)
    (now : string) (r : redis) : bool * redis :=
  match get_entry entry_id r with
  | Some entry =>
      let agent_outputs := dict_set agent_name output (agent_outputs entry) in
      let decision_trace :=
        decision_trace entry ++ [agent_name +:+ ": " +:+ now] in
      update_entry entry_id
        (set_outputs_and_trace agent_outputs decision_trace) r
  | None => (false, r)
  end.

(** Going from the head, drop the first [n] elements equal to [value];
    the number dropped comes with the list. *)
Fixpoint remove_up_to (n : nat) (value : string) (l : list string)
    : nat * list string :=
  match l with
  | [] => (0, [])
  | x :: rest =>
      match n with
      | 0 => (0, l)
      | S n' =>
          if String.eqb x value
          then let '(k, rest') := remove_up_to n' value rest in (S k, rest')
          else let '(k, rest') := remove_up_to n value rest in (k, x :: rest')
      end
  end.

(** [LREM key count value]: a positive count works from the head, a
    negative one from the tail, zero removes every occurrence; the answer
    is the number of elements removed, and a list left empty is deleted. *)
Definition lrem (key : string) (count : Z) (value : string) (r : redis)
    : nat * redis :=
  let l := default [] (lists r !! key) in
  let '(removed, l') :=
    if (0 <? count)%Z then remove_up_to (Z.to_nat count) value l
    else if (count <? 0)%Z then
      let '(k, l') := remove_up_to (Z.to_nat (- count)) value (rev l) in
      (k, rev l')
    else (length (List.filter (String.eqb value) l),
          List.filter (fun x => negb (String.eqb value x)) l) in
  (removed,
   {| hashes := hashes r;
      lists := match l' with
               | [] => delete key (lists r)
               | _ :: _ => <[key := l']> (lists r)
               end |}).

Definition remove_from_queue (entry_id : string) (r : redis) : bool * redis :=
  let '(removed, r) := lrem "processing_queue" 1 entry_id r in
  (0 <? removed, r).

(** [KEYS prefix*]: the keys that start with [prefix].  Redis promises no
    order; the model lists them in the order of its own enumeration. *)
Definition keys (prefix : string) (r : redis) : list string :=
  List.filter (String.prefix prefix)
    (elements (dom (hashes r) ∪ dom (lists r) : gset string)).

(** [DEL key ...] *)
Definition del (ks : list string) (r : redis) : redis :=
  {| hashes := foldr delete (hashes r) ks;
     lists := foldr delete (lists r) ks |}.

(** The loop of [get_all_entries]; [None] stands for the [IndexError] of
    [key.split(":")[1]], which no handler catches. *)
Fixpoint collect_entries (ks : list string) (r : redis)
    (entries : list MemoryEntry) : option (list MemoryEntry) :=
  match ks with
  | [] => Some entries
  | key :: rest =>
      match str_split_on ":" key !! 1 with
      | None => None
      | Some entry_id =>
          match get_entry entry_id r with
          | Some entry => collect_entries rest r (entries ++ [entry])
          | None => collect_entries rest r entries
          end
      end
  end.

Definition get_all_entries (r : redis) : option (list MemoryEntry) :=
  collect_entries (keys "memory:" r) r [].

Definition clear_all (r : redis) : bool * redis :=
  let ks := keys "memory:" r in
  let r := match ks with
           | [] => r
           | _ :: _ => del ks r
           end in
  (true, del ["processing_queue"] r).

End Store.

(** ** routers/action_router.py *)

Module ActionRouter.

Import Json Store.

(** What a handler returns: a dictionary of texts. *)
Definition outcome : Type := list (string * string).

(** A handler receives the context and the entry id; it may read and
    change the store, and it returns a dictionary or raises. *)
Definition handler : Type :=
  json -> string -> redis -> (pyexn + outcome) * redis.

(** A handler that only computes its answer. *)
Definition pure_handler (f : json -> string -> outcome) : handler :=
  fun context entry_id r => (inr (f context entry_id), r).

(** [_call_external_api]: the simulated services read the entry id of the
    payload only; the time stamp of the answer is left out. *)
Definition _call_external_api (service endpoint entry_id : string) : outcome :=
  if String.eqb service "crm"
  then [("ticket_id", "TKT-" +:+ slice_to 8 entry_id); ("status", "created")]
  else if String.eqb service "risk"
  then [("review_id", "REV-" +:+ slice_to 8 entry_id); ("status", "flagged")]
  else [("status", "simulated");
        ("message", "Simulated call to " +:+ service +:+ endpoint)].

(** [response.get(key, fallback)] *)
Definition get_or (key fallback : string) (response : outcome) : string :=
  default fallback (dict_get key response).

Definition _escalate_to_manager (context : json) (entry_id : string) : outcome :=
  let response := _call_external_api "crm" "/escalate" entry_id in
  [ ("status", "escalated");
    ("ticket_id", get_or "ticket_id" ("ESC-" +:+ slice_to 8 entry_id) response);
    ("assigned_to", "manager@company.com");
    ("message", "Issue escalated to management") ].

Definition _create_priority_ticket (context : json) (entry_id : string)
    : outcome :=
  let response := _call_external_api "crm" "/tickets" entry_id in
  [ ("status", "ticket_created");
    ("ticket_id", get_or "ticket_id" ("PRI-" +:+ slice_to 8 entry_id) response);
    ("priority", "high");
    ("message", "Priority ticket created") ].

Definition _create_high_priority_ticket := _create_priority_ticket.

Definition _notify_team_lead (context : json) (entry_id : string) : outcome :=
  [ ("status", "notified");
    ("notification_id", "NOT-" +:+ slice_to 8 entry_id);
    ("recipient", "teamlead@company.com");
    ("message", "Team lead notified of high priority issue") ].

Definition _standard_response (context : json) (entry_id : string) : outcome :=
  [ ("status", "response_sent");
    ("response_id", "RSP-" +:+ slice_to 8 entry_id);
    ("message", "Standard response sent to customer") ].

Definition _log_and_track (context : json) (entry_id : string) : outcome :=
  [ ("status", "logged");
    ("tracking_id", "TRK-" +:+ slice_to 8 entry_id);
    ("message", "Issue logged and being tracked") ].

Definition _log_schema_violation (context : json) (entry_id : string)
    : outcome :=
  [ ("status", "logged");
    ("violation_id", "SCH-" +:+ slice_to 8 entry_id);
    ("message", "Schema violation logged for review") ].

Definition _notify_integration_team (context : json) (entry_id : string)
    : outcome :=
  [ ("status", "notified");
    ("notification_id", "INT-" +:+ slice_to 8 entry_id);
    ("recipient", "integration@company.com");
    ("message", "Integration team notified of data issues") ].

Definition _flag_financial_review (context : json) (entry_id : string)
    : outcome :=
  let response := _call_external_api "risk" "/financial_review" entry_id in
  [ ("status", "flagged");
    ("review_id", get_or "review_id" ("FIN-" +:+ slice_to 8 entry_id) response);
    ("message", "Flagged for financial review") ].

Definition _log_data_quality_issue (context : json) (entry_id : string)
    : outcome :=
  [ ("status", "logged");
    ("issue_id", "DQ-" +:+ slice_to 8 entry_id);
    ("message", "Data quality issue logged") ].

Definition _quarantine_for_review (context : json) (entry_id : string)
    : outcome :=
  [ ("status", "quarantined");
    ("quarantine_id", "QUA-" +:+ slice_to 8 entry_id);
    ("message", "Data quarantined for manual review") ].

Definition _require_manager_approval (context : json) (entry_id : string)
    : outcome :=
  [ ("status", "pending_approval");
    ("approval_id", "APP-" +:+ slice_to 8 entry_id);
    ("approver", "manager@company.com");
    ("message", "Awaiting manager approval") ].

Definition _route_to_compliance_team (context : json) (entry_id : string)
    : outcome :=
  [ ("status", "routed");
    ("routing_id", "COM-" +:+ slice_to 8 entry_id);
    ("recipient", "compliance@company.com");
    ("message", "Routed to compliance team") ].

Definition _notify_data_protection_officer (context : json)
    (entry_id : string) : outcome :=
  [ ("status", "notified");
    ("notification_id", "DPO-" +:+ slice_to 8 entry_id);
    ("recipient", "dpo@company.com");
    ("message", "Data protection officer notified") ].

Definition _route_to_regulatory_affairs (context : json) (entry_id : string)
    : outcome :=
  [ ("status", "routed");
    ("routing_id", "REG-" +:+ slice_to 8 entry_id);
    ("recipient", "regulatory@company.com");
    ("message", "Routed to regulatory affairs") ].

Definition _encrypt_and_secure (context : json) (entry_id : string) : outcome :=
  [ ("status", "secured");
    ("security_id", "SEC-" +:+ slice_to 8 entry_id);
    ("message", "Document encrypted and secured") ].

Definition _prioritize_processing (context : json) (entry_id : string)
    : outcome :=
  [ ("status", "prioritized");
    ("priority_id", "PRI-" +:+ slice_to 8 entry_id);
    ("message", "Document processing prioritized") ].

Definition _log_error (context : json) (entry_id : string) : outcome :=
  [ ("status", "logged");
    ("error_id", "ERR-" +:+ slice_to 8 entry_id);
    ("message", "Error logged for investigation") ].

Definition _alert_admin (context : json) (entry_id : string) : outcome :=
  [ ("status", "alerted");
    ("alert_id", "ADM-" +:+ slice_to 8 entry_id);
    ("recipient", "admin@company.com");
    ("message", "Administrator alerted") ].

Definition _process_normally (context : json) (entry_id : string) : outcome :=
  [ ("status", "processing");
    ("process_id", "NOR-" +:+ slice_to 8 entry_id);
    ("message", "Processing normally") ].

Definition _standard_processing := _process_normally.

(** [self.action_handlers] *)
Definition action_handlers : gmap string handler :=
  list_to_map
    (map (fun p => (fst p, pure_handler (snd p)))
       [ ("escalate_to_manager", _escalate_to_manager);
         ("create_priority_ticket", _create_priority_ticket);
         ("create_high_priority_ticket", _create_high_priority_ticket);
         ("notify_team_lead", _notify_team_lead);
         ("standard_response", _standard_response);
         ("log_and_track", _log_and_track);
         ("log_schema_violation", _log_schema_violation);
         ("notify_integration_team", _notify_integration_team);
         ("flag_financial_review", _flag_financial_review);
         ("log_data_quality_issue", _log_data_quality_issue);
         ("quarantine_for_review", _quarantine_for_review);
         ("require_manager_approval", _require_manager_approval);
         ("route_to_compliance_team", _route_to_compliance_team);
         ("notify_data_protection_officer", _notify_data_protection_officer);
         ("route_to_regulatory_affairs", _route_to_regulatory_affairs);
         ("encrypt_and_secure", _encrypt_and_secure);
         ("prioritize_processing", _prioritize_processing);
         ("log_error", _log_error);
         ("alert_admin", _alert_admin);
         ("process_normally", _process_normally);
         ("standard_processing", _standard_processing) ]).

Definition unknown_action (action : string) : outcome :=
  [ ("status", "unknown_action");
    ("message", "No handler for action: " +:+ action) ].

Definition error_outcome (e : pyexn) : outcome :=
  [ ("status", "error"); ("message", exn_str e) ].

(** The state the loop works on: the dictionary [results] and the store. *)
Definition loop_state : Type := gmap string outcome * redis.

Section Route.

Variable handlers : gmap string handler.
Variable context : json.
Variable entry_id : string.

(** The statements under [try:] for one action. *)
Definition try_body (action : string) (st : loop_state)
    : (pyexn + unit) * loop_state :=
  let '(results, store) := st in
  match handlers !! action with
  | Some h =>
      match h context entry_id store with
      | (inr result, store) =>
          let results := <[action := result]> results in
          let line := action +:+ ": " +:+ get_or "status" "completed" result in
          let store := snd (add_action_triggered entry_id line store) in
          (inr tt, (results, store))
      | (inl e, store) => (inl e, (results, store))
      end
  | None => (inr tt, (<[action := unknown_action action]> results, store))
  end.

(** One turn of the loop: the body under [try:], and [except Exception]. *)
Definition route_one (action : string) (st : loop_state)
    : (pyexn + unit) * loop_state :=
  match try_body action st with
  | (inl e, (results, store)) =>
      (inr tt, (<[action := error_outcome e]> results, store))
  | done => done
  end.

(** The loop; an exception leaving a turn would end it. *)
Fixpoint route_loop (actions : list string) (st : loop_state)
    : (pyexn + unit) * loop_state :=
  match actions with
  | [] => (inr tt, st)
  | action :: rest =>
      match route_one action st with
      | (inr _, st) => route_loop rest st
      | (inl e, st) => (inl e, st)
      end
  end.

(** [route_actions]: the dictionary returned, or the exception raised, and
    the store afterwards. *)
Definition route_actions (actions : list string) (store : redis)
    : (pyexn + gmap string outcome) * redis :=
  match route_loop actions (∅, store) with
  | (inr _, (results, store)) => (inr results, store)
  | (inl e, (_, store)) => (inl e, store)
  end.

(** What one turn of the loop amounts to: the outcome it records for the
    action when the store is [store], and the store it leaves. *)
Definition recorded (action : string) (store : redis) : outcome :=
  match handlers !! action with
  | None => unknown_action action
  | Some h =>
      match h context entry_id store with
      | (inr result, _) => result
      | (inl e, _) => error_outcome e
      end
  end.

Definition store_after (action : string) (store : redis) : redis :=
  match handlers !! action with
  | None => store
  | Some h =>
      match h context entry_id store with
      | (inr result, store) =>
          let line := action +:+ ": " +:+ get_or "status" "completed" result in
          snd (add_action_triggered entry_id line store)
      | (inl e, store) => store
      end
  end.

(** The store reached after a whole list of actions. *)
Definition store_after_all (actions : list string) (store : redis) : redis :=
  fold_left (fun store action => store_after action store) actions store.

(** The dictionary after a whole list of actions, started with [results]. *)
Fixpoint results_after (actions : list string) (results : gmap string outcome)
    (store : redis) : gmap string outcome :=
  match actions with
  | [] => results
  | a :: rest =>
      results_after rest (<[a := recorded a store]> results)
                    (store_after a store)
  end.

(** The line written to the record's action trace for a handled action. *)
Definition trace_line (action : string) (store : redis) : string :=
  action +:+ ": " +:+ get_or "status" "completed" (recorded action store).

Definition registered (action : string) : bool :=
  bool_decide (is_Some (handlers !! action)).

End Route.

End ActionRouter.

(** ** agents/base_agent.py *)

Module BaseAgent.

Import Json Dyn Store.

(** [log_decision]; [logged] is the reading of the clock written into the
    output, [stored] the later one written into the trace line. *)
Definition log_decision (name agent_id entry_id decision : string)
    (logged stored : string) (r : redis) : redis :=
  snd (add_agent_output entry_id name
         (JDict [ ("decision", JStr decision); ("timestamp", JStr logged);
                  ("agent_id", JStr agent_id) ])
         stored r).

(** [calculate_confidence], for two counts. *)
Definition calculate_confidence (matches total_possible : nat)
    : pyexn + pyfloat :=
  if total_possible =? 0 then inr (FFin 0)
  else
    let* ratio := Num.int_true_div matches total_possible in
    inr (if flt (FFin 1) ratio then FFin 1 else ratio).

End BaseAgent.

(** ** agents/classifier_agent.py: the metadata *)

Module ClassifierAgent.

Import Re Json.

(** [urgent|asap|immediate] *)
Definition urgency_words : regex := RWords ["urgent"; "asap"; "immediate"].

(** [[\w\.-]+@[\w\.-]+\.\w+] *)
Definition address_chars : list citem := [CWord; CLit "."; CLit "-"].

Definition address : regex :=
  RSeq [ RPlus (RSet address_chars); RLit "@"; RPlus (RSet address_chars);
         RLit "."; RPlus w ].

(** [_extract_metadata]; [None] stands for the [IndexError] of
    [email_match.group().split('@')[1]]. *)
Definition _extract_metadata (input_data : string) (format_type : FormatType)
    : option (list (string * json)) :=
  let metadata :=
    [ ("length", JInt (Z.of_nat (String.length input_data)));
      ("word_count", JInt (Z.of_nat (length (str_split input_data))));
      ("format_type", JStr (FormatType_value format_type)) ] in
  match format_type with
  | EMAIL =>
      let metadata :=
        if found true urgency_words input_data
        then dict_set "urgency_indicators" (JBool true) metadata
        else metadata in
      match search false address input_data with
      | Some email_match =>
          match str_split_on "@" (group0 input_data email_match) !! 1 with
          | Some domain => Some (dict_set "sender_domain" (JStr domain) metadata)
          | None => None
          end
      | None => Some metadata
      end
  | JSON =>
      Some (if contains "webhook" (lower input_data)
            then dict_set "webhook_detected" (JBool true) metadata
            else metadata)
  | PDF =>
      Some (if contains "invoice" (lower input_data)
            then dict_set "document_type" (JStr "invoice") metadata
            else if any_in ["policy"; "regulation"; "compliance"]
                           (lower input_data)
            then dict_set "document_type" (JStr "regulation") metadata
            else metadata)
  end.

End ClassifierAgent.

(** ** agents/email_agent.py: tone, actions, keywords *)

Module EmailTone.

Import Re Dyn.

(** [self.tone_keywords], in declaration order. *)
Definition tone_keywords : list (Tone * list string) :=
  [ (THREATENING, ["lawsuit"; "legal action"; "consequences"; "unacceptable"]);
    (ANGRY, ["furious"; "outraged"; "disgusted"; "terrible"; "awful"]);
    (ESCALATION, ["manager"; "supervisor"; "escalate"; "complaint"]);
    (POLITE, ["please"; "thank you"; "appreciate"; "kindly"]);
    (NEUTRAL, []) ].

(** The two nested loops with their [return tone]. *)
Fixpoint first_tone (table : list (Tone * list string))
    (text_lower : string) : option Tone :=
  match table with
  | [] => None
  | (tone, keywords) :: rest =>
      if existsb (fun keyword => contains keyword text_lower) keywords
      then Some tone
      else first_tone rest text_lower
  end.

(** The class [[A-Z]], member by member. *)
Definition upper_letters : list citem :=
  map CLit (String.list_ascii_of_string "ABCDEFGHIJKLMNOPQRSTUVWXYZ").

(** [\b[A-Z]{3,}\b] *)
Definition capitals : regex :=
  RSeq [ RWordB; RAtLeast 3 (RSet upper_letters); RWordB ].

Definition _determine_tone (email_text : string) : pyexn + Tone :=
  let text_lower := lower email_text in
  match first_tone tone_keywords text_lower with
  | Some tone => inr tone
  | None =>
      let caps_words := length (findall false capitals email_text) in
      let total_words := length (str_split email_text) in
      let* shouting :=
        (if 0 <? total_words then
           let* ratio := Num.int_true_div caps_words total_words in
           inr (fgt ratio (Num.binary64 (3 # 10)))
         else inr false) in
      if shouting then inr ANGRY
      else if any_in ["please"; "thank"; "appreciate"] text_lower
      then inr POLITE
      else inr NEUTRAL
  end.

Definition _recommend_actions (urgency : Urgency) (tone : Tone)
    : list string :=
  if bool_decide (urgency = CRITICAL)
     || bool_decide (tone = THREATENING) || bool_decide (tone = ANGRY)
  then ["escalate_to_manager"; "create_priority_ticket"]
  else if bool_decide (urgency = HIGH) || bool_decide (tone = ESCALATION)
  then ["create_high_priority_ticket"; "notify_team_lead"]
  else if bool_decide (tone = POLITE)
          && (bool_decide (urgency = LOW) || bool_decide (urgency = MEDIUM))
  then ["standard_response"; "log_and_track"]
  else ["standard_processing"].

(** The keywords of a table present in the text, in the order of the
    table. *)
Definition keywords_in {K} (table : list (K * list string))
    (text_lower : string) : list string :=
  flat_map (fun entry =>
              List.filter (fun keyword => contains keyword text_lower)
                          (snd entry))
           table.

(** [_extract_keywords_found]: the lists under [urgency] and [tone]. *)
Definition _extract_keywords_found (email_text : string)
    : list (string * list string) :=
  let text_lower := lower email_text in
  [ ("urgency", keywords_in EmailAgent.urgency_keywords text_lower);
    ("tone", keywords_in tone_keywords text_lower) ].

End EmailTone.

(** ** Sample data used by the statements below *)

Module Examples.

Import Json.

(** Text written with single quotes where JSON wants double quotes. *)
Fixpoint json_text (s : string) : string :=
  match s with
  | EmptyString => EmptyString
  | String c tl =>
      String (if char_eqb c "'" then dquote else c) (json_text tl)
  end.

Definition payment_text : string :=
  json_text "{'transaction_id':'t1','amount':50,'currency':'USD','status':'ok'}".

Definition payment_payload : json :=
  JDict [ ("transaction_id", JStr "t1"); ("amount", JInt 50);
          ("currency", JStr "USD"); ("status", JStr "ok") ].

Definition blank_classification : Classifier.ClassificationResult :=
  {| Classifier.format_type := JSON;
     Classifier.business_intent := UNKNOWN;
     Classifier.confidence_score := 0 |}.

Definition total_line : string := "Total: $12,500.00".

(** An invoice whose subtotal line comes before the total line. *)
Definition subtotal_invoice : string :=
  "Invoice subtotal: 5" +:+ String newline total_line.

(** An invoice with the total line alone. *)
Definition invoice_heading : string :=
  "Invoice" +:+ String newline EmptyString.

Definition plain_invoice : string := invoice_heading +:+ total_line.

(** A fresh record, as the pipeline creates one for an inbound document. *)
Definition new_entry (entry_id : string) : Store.MemoryEntry :=
  {| Store.id := entry_id;
     Store.input_metadata := [];
     Store.classification := blank_classification;
     Store.agent_outputs := [];
     Store.actions_triggered := [];
     Store.decision_trace := [];
     Store.timestamp := "2024-01-01T00:00:00";
     Store.status := "processing" |}.

(** Entry [a] arrives first, entry [b] second. *)
Definition two_entries : list Store.MemoryEntry :=
  [new_entry "a"; new_entry "b"].

(** A payload whose only field is a time stamp before the epoch. *)
Definition early_timestamp_payload : json :=
  JDict [("timestamp", JInt (-1))].

(** A payload whose only field is a test status. *)
Definition test_status_payload : json :=
  JDict [("status", JStr "test")].

End Examples.

(** ** The claims in the words of the specification

    These predicates follow the text of the specification, not the code;
    the properties of Part II compare the code with them. *)

Module Spec.

Definition financial_anomaly (a : string) : Prop :=
  a = "negative_amount" \/ a = "unusually_high_amount".

(** The six actions the JSON agent recommends for a parsed payload. *)
Definition json_actions : list string :=
  [ "log_schema_violation"; "notify_integration_team";
    "flag_financial_review"; "log_data_quality_issue";
    "quarantine_for_review"; "process_normally" ].

(** "a timestamp anomaly (unparsable or out-of-range timestamp)" *)
Definition timestamp_anomaly (a : string) : Prop :=
  a = "malformed_timestamp" \/ a = "invalid_timestamp_range".

(** The recommended actions of the JSON agent as the specification words
    them, for the anomalies found, the verdict of the schema check and
    the actions recommended. *)
Definition additive_actions (anomalies : list string)
    (schema_valid : bool) (actions : list string) : Prop :=
  (In "log_schema_violation" actions /\ In "notify_integration_team" actions
   <-> schema_valid = false)
  /\ (In "flag_financial_review" actions
      <-> exists a, In a anomalies /\ financial_anomaly a)
  /\ (In "log_data_quality_issue" actions
      <-> exists a, In a anomalies /\ timestamp_anomaly a)
  /\ (In "quarantine_for_review" actions <-> 2 < length anomalies)
  /\ (schema_valid = true
      -> (forall a, In a anomalies -> ~ financial_anomaly a)
      -> (forall a, In a anomalies -> ~ timestamp_anomaly a)
      -> length anomalies <= 2
      -> actions = ["process_normally"]).

(** The total number of matches of a format's patterns in a text. *)
Definition matches_total (f : FormatType) (input : string) : nat :=
  list_sum (map (fun pattern => length (Re.findall true pattern input))
                (table_get f [] Classifier.format_patterns)).

(** The place of a key in a list of keys. *)
Fixpoint position {K} `{EqDecision K} (key : K) (keys : list K) : nat :=
  match keys with
  | [] => 0
  | k :: rest => if decide (k = key) then 0 else S (position key rest)
  end.

(** [f] is declared before [g] in the format table. *)
Definition declared_before (f g : FormatType) : Prop :=
  position f (map fst Classifier.format_patterns)
  < position g (map fst Classifier.format_patterns).

(** "two or more consecutive exclamation marks" *)
Definition double_exclamation (text : string) : Prop :=
  contains "!!" text = true.

Fixpoint all_space (ws : string) : bool :=
  match ws with
  | EmptyString => true
  | String c tl => is_space c && all_space tl
  end.

Definition deadline_phrases : list string :=
  ["today"; "tomorrow"; "end of day"; "eod"].

(** "a same-day deadline phrase (by today/tomorrow/end of day/eod)": the
    word [by], some white space, and one of the four phrases. *)
Definition same_day_deadline (text_lower : string) : Prop :=
  exists before c ws phrase rest,
    text_lower = before +:+ "by" +:+ String c ws +:+ phrase +:+ rest
    /\ is_space c = true /\ all_space ws = true
    /\ In phrase deadline_phrases.

(** "two structural overrides applied before the keyword check": read this
    way, a text that shows one of the two is HIGH whatever keywords it
    holds. *)
Definition overrides_first (email_text : string) (urgency : Urgency) : Prop :=
  double_exclamation email_text \/ same_day_deadline (lower email_text) ->
  urgency = HIGH.

(** A tier of the urgency table has a keyword in the lowered text. *)
Definition tier_matches (keywords : list string) (text_lower : string) : Prop :=
  exists keyword, In keyword keywords /\ contains keyword text_lower = true.

(** A total pattern that the loop passes over: it has no match, or the
    capture of its match does not convert to a float. *)
Definition unusable (pattern : Re.regex) (text : string) : Prop :=
  Re.search true pattern text = None
  \/ exists m e, Re.search true pattern text = Some m
       /\ Num.float_of_str (remove_char "," (Re.group 1 m)) = inl e.

(** "the number of the chosen format's regex patterns that match the
    input, case-insensitive" and "the number of the chosen intent's
    keywords present in the lowercased input". *)
Definition format_matches (f : FormatType) (input : string) : nat :=
  length (List.filter (fun p => Re.found true p input)
                      (table_get f [] Classifier.format_patterns)).

Definition intent_matches (i : BusinessIntent) (input : string) : nat :=
  length (List.filter (fun k => contains k (lower input))
                      (table_get i [] Classifier.intent_keywords)).

(** The totals, floored at 1. *)
Definition format_total (f : FormatType) : nat :=
  Nat.max (length (table_get f [] Classifier.format_patterns)) 1.

Definition intent_total (i : BusinessIntent) : nat :=
  Nat.max (length (table_get i [] Classifier.intent_keywords)) 1.

(** The two shares as Python divides one [int] by another: each quotient
    is the nearest double. *)
Definition format_share (f : FormatType) (input : string)
    : pyexn + pyfloat :=
  Num.int_true_div (format_matches f input) (format_total f).

Definition intent_share (i : BusinessIntent) (input : string)
    : pyexn + pyfloat :=
  Num.int_true_div (intent_matches i input) (intent_total i).

(** The same two shares as exact fractions. *)
Definition format_fraction (f : FormatType) (input : string) : Q :=
  (inject_Z (Z.of_nat (format_matches f input))
   / inject_Z (Z.of_nat (format_total f)))%Q.

Definition intent_fraction (i : BusinessIntent) (input : string) : Q :=
  (inject_Z (Z.of_nat (intent_matches i input))
   / inject_Z (Z.of_nat (intent_total i)))%Q.

(** "(f + i) / 2" for the shares [a / b] and [c / d], as Python computes
    it on floats, and as an exact fraction. *)
Definition mean_of_shares (a b c d : nat) : pyexn + pyfloat :=
  let* f := Num.int_true_div a b in
  let* i := Num.int_true_div c d in
  Num.float_div_int (Num.fadd f i) 2.

Definition exact_mean (a b c d : nat) : Q :=
  ((inject_Z (Z.of_nat a) / inject_Z (Z.of_nat b)
    + inject_Z (Z.of_nat c) / inject_Z (Z.of_nat d)) / 2)%Q.

(** The computed mean is a float between 0 and 1 and within 2^-53 of the
    exact one. *)
Definition close_mean (a b c d : nat) : bool :=
  match mean_of_shares a b c d with
  | inr (FFin q) =>
      Qle_bool 0 q && Qle_bool q 1
      && Qle_bool (Qabs (q - exact_mean a b c d)) (1 # 9007199254740992)
  | _ => false
  end.

End Spec.

(* ===================================================================== *)
(** * Part II.  Properties                                                *)
(* ===================================================================== *)

(** ** The record store: the processing queue *)

Section StoreProps.

Import Store.

Lemma lrange_all key r : lrange key 0 (-1) r = default [] (lists r !! key).
Proof.
  unfold lrange. set (l := default [] (lists r !! key)). clearbody l.
  change (0 <? 0)%Z with false. change (-1 <? 0)%Z with true. cbv iota.
  destruct l as [|x l'].
  - reflexivity.
  - set (n := Z.of_nat (length (x :: l'))).
    assert (Hn : (0 < n)%Z) by (subst n; cbn [length]; lia).
    destruct (_ || _) eqn:B.
    + apply orb_true_iff in B as [B|B];
        [apply Z.ltb_lt in B | apply Z.leb_le in B]; lia.
    + replace (Z.to_nat (n + -1 - 0 + 1)) with (length (x :: l')) by lia.
      change (Z.to_nat 0) with 0%nat. rewrite drop_0. apply firstn_all.
Qed.

(** One [store_entry] puts the id at the head of the queue. *)
Lemma queue_store_entry e r :
  get_processing_queue (snd (store_entry e r))
  = id e :: get_processing_queue r.
Proof.
  unfold get_processing_queue. rewrite !lrange_all.
  unfold store_entry, lpush, hset; cbn. by rewrite lookup_insert_eq.
Qed.

Lemma queue_store_all es : forall r,
  get_processing_queue (store_all es r)
  = rev (map id es) ++ get_processing_queue r.
Proof.
  induction es as [|e es IH]; intros r; [reflexivity|].
  cbn [store_all fold_left]. fold (store_all es (snd (store_entry e r))).
  rewrite IH, queue_store_entry. cbn [map rev]. by rewrite <- app_assoc.
Qed.

Lemma queue_empty : get_processing_queue empty = [].
Proof. reflexivity. Qed.

(** C6, as amended.  After any run of [store_entry] calls,
    [get_processing_queue] lists the ids newest first: the ids of the run
    in the reverse of their order of arrival, followed by what was queued
    before.  On a store that was empty, its first id is that of the entry
    stored last, its last id is that of the entry stored first, and every
    id occurs once per call that stored it. *)
Theorem C6_queue_is_newest_first (entries : list MemoryEntry) :
  (forall r, get_processing_queue (store_all entries r)
             = rev (map id entries) ++ get_processing_queue r)
  /\ (let queue := get_processing_queue (store_all entries empty) in
      queue = rev (map id entries)
      /\ head queue = last (map id entries)
      /\ last queue = head (map id entries)
      /\ (forall i, count_occ String.string_dec queue i
                    = count_occ String.string_dec (map id entries) i)).
Proof.
  split; [apply queue_store_all|].
  cbv zeta. rewrite queue_store_all, queue_empty, app_nil_r.
  set (ids := map id entries). clearbody ids. repeat split.
  - destruct ids as [|x l] using rev_ind; [reflexivity|].
    rewrite rev_unit, last_snoc. reflexivity.
  - destruct ids as [|x l]; [reflexivity|].
    cbn [rev head]. by rewrite last_snoc.
  - intros i. induction ids as [|x l IH]; [reflexivity|].
    cbn [rev]. rewrite count_occ_app, IH. cbn [count_occ].
    destruct (String.string_dec x i); lia.
Qed.

(** C6, as stated, fails: with entry [a] stored before entry [b], the
    queue starts with [b], not with the earliest-stored [a]. *)
Lemma C6_queue_not_fifo :
  get_processing_queue (store_all Examples.two_entries empty) = ["b"; "a"]
  /\ head (get_processing_queue (store_all Examples.two_entries empty))
     <> head (map id Examples.two_entries).
Proof. split; [reflexivity | discriminate]. Qed.

End StoreProps.

(** ** The JSON agent *)

Section JSONProps.

Import Json Dyn JSONAgent.

Lemma existsb_financial anomalies :
  existsb is_financial anomalies = true
  <-> exists a, In a anomalies /\ Spec.financial_anomaly a.
Proof.
  rewrite existsb_exists. unfold Spec.financial_anomaly, is_financial.
  split; intros (a & Ha & H); exists a; split; try done.
  - cbn in H. rewrite !orb_true_iff in H.
    destruct H as [H|[H|H]]; try discriminate;
      apply String.eqb_eq in H; auto.
  - destruct H as [->| ->]; reflexivity.
Qed.

Lemma existsb_eqb (x : string) l :
  existsb (String.eqb x) l = true <-> In x l.
Proof.
  rewrite existsb_exists. split.
  - intros (a & Ha & H). apply String.eqb_eq in H. by subst.
  - intros H. exists x. split; [done | apply String.eqb_refl].
Qed.

Ltac in_cases :=
  repeat match goal with
         | H : In _ (_ ++ _) |- _ => apply in_app_or in H
         | H : In _ (_ :: _) |- _ => destruct H as [H|H]
         | H : In _ [] |- _ => destruct H
         | H : _ \/ _ |- _ => destruct H
         | H : _ /\ _ |- _ => destruct H
         | H : exists _, _ |- _ => destruct H
         end; try discriminate.

Lemma bool_prop_cases (b : bool) (P : Prop) :
  (b = true <-> P) -> (b = true /\ P) \/ (b = false /\ ~ P).
Proof. destruct b; intuition discriminate. Qed.

Lemma recommend_shape anomalies schema_valid :
  let actions := _recommend_actions anomalies schema_valid in
  (In "log_schema_violation" actions <-> schema_valid = false)
  /\ (In "notify_integration_team" actions <-> schema_valid = false)
  /\ (In "flag_financial_review" actions
      <-> exists a, In a anomalies /\ Spec.financial_anomaly a)
  /\ (In "log_data_quality_issue" actions
      <-> In "malformed_timestamp" anomalies)
  /\ (In "quarantine_for_review" actions <-> 2 < length anomalies)
  /\ (In "process_normally" actions <-> anomalies = [])
  /\ (forall a, In a actions -> In a Spec.json_actions).
Proof.
  cbv zeta. unfold _recommend_actions, Spec.json_actions.
  destruct anomalies as [|a0 rest].
  - destruct schema_valid; cbn;
      intuition (try discriminate; in_cases; try lia; auto 10).
  - set (l := a0 :: rest).
    destruct (bool_prop_cases _ _ (existsb_financial l)) as [[-> F]|[-> F]];
    destruct (bool_prop_cases _ _ (existsb_eqb "malformed_timestamp" l))
      as [[-> T]|[-> T]];
    destruct (bool_prop_cases _ _ (Nat.ltb_lt 2 (length l))) as [[-> Q]|[-> Q]];
    destruct schema_valid; cbn [negb app In];
      intuition (try discriminate; in_cases; try lia; auto 10).
Qed.

(** A decode error never leaves [process]: it yields the error-shaped
    result. *)
Lemma process_decode_error iso input conf msg pos :
  loads input = inl (JSONDecodeError msg pos) ->
  exists r, process iso input conf = inr r
    /\ webhook_type (json_data r) = "invalid"
    /\ schema_valid (json_data r) = false
    /\ anomalies (json_data r) = ["malformed_json"]
    /\ recommended_actions r = ["log_error"; "alert_admin"].
Proof.
  intros H. unfold process. rewrite H. cbn. eexists. split; [reflexivity|].
  repeat split.
Qed.

(** C1.  The malformed text [{not json] is answered by the error-shaped
    result with type [invalid], an invalid schema, the single anomaly
    [malformed_json] and the actions [log_error], [alert_admin].  But
    [process] does raise for some input: the text [5] is valid JSON, and
    the membership test of [_detect_anomalies] on the integer raises a
    [TypeError] that no handler catches. *)
Theorem C1_malformed_caught_scalar_raises :
  (forall iso conf, exists r,
      process iso "{not json" conf = inr r
      /\ webhook_type (json_data r) = "invalid"
      /\ schema_valid (json_data r) = false
      /\ anomalies (json_data r) = ["malformed_json"]
      /\ recommended_actions r = ["log_error"; "alert_admin"])
  /\ (forall iso conf,
        process iso "5" conf
        = inl (TypeError "argument of type 'int' is not iterable")).
Proof.
  split; intros iso conf.
  - eexists. split; [vm_compute; reflexivity | repeat split].
  - vm_compute. reflexivity.
Qed.

(** The same failure for a payload that is a JSON object: an integer
    amount too large for a float raises [OverflowError]. *)
Lemma detect_anomalies_overflow iso z :
  (2 ^ 1024 <= z)%Z ->
  _detect_anomalies iso (JDict [("amount", JInt z)]) "payment"
  = inl (OverflowError "int too large to convert to float").
Proof.
  intros Hz. unfold _detect_anomalies. cbn.
  unfold Num.float_of_int.
  destruct (Z.ltb_spec (Z.abs z) (2 ^ 1024 - 2 ^ 970)) as [H|H]; [|reflexivity].
  exfalso. assert (0 < 2 ^ 970)%Z by (apply Z.pow_pos_nonneg; lia). lia.
Qed.

(** C9.  The well-formed payment webhook is typed [payment], passes the
    schema check without errors and shows no anomaly. *)
Theorem C9_payment_round_trip :
  forall iso conf, exists r,
    process iso Examples.payment_text conf = inr r
    /\ payload (json_data r) = Examples.payment_payload
    /\ webhook_type (json_data r) = "payment"
    /\ schema_valid (json_data r) = true
    /\ validation_errors (json_data r) = []
    /\ anomalies (json_data r) = [].
Proof.
  intros iso conf. eexists. split; [vm_compute; reflexivity | repeat split].
Qed.

(** What [process] returns on the path where the text was parsed. *)
Lemma process_parsed iso input conf r :
  process iso input conf = inr r ->
  dict_get "parsed_successfully" (processing_metadata r) = Some (JBool true) ->
  recommended_actions r
  = _recommend_actions (anomalies (json_data r)) (schema_valid (json_data r)).
Proof.
  unfold process. intros H Hp.
  match type of H with try_except ?body _ _ = _ => destruct body as [e|r0] eqn:E end.
  - cbn in H. destruct (is_json_decode_error e); [|discriminate].
    injection H as <-. discriminate.
  - cbn in H. injection H as <-. clear Hp. unfold bind in E.
    repeat match type of E with
           | match ?x with _ => _ end = _ => destruct x; try discriminate
           end.
    injection E as <-. reflexivity.
Qed.

(** C5, as amended.  On the path where the text was parsed, the actions
    are additive: both schema actions are present exactly when the schema
    check failed; [flag_financial_review] exactly when a negative or an
    unusually high amount was found; [log_data_quality_issue] exactly when
    the anomaly [malformed_timestamp] (a time stamp text that does not
    parse) was found; [quarantine_for_review] exactly when more than two
    anomalies were found; [process_normally] exactly when no anomaly was
    found, whatever the schema check said; and no other action occurs. *)
Theorem C5_actions_of_parsed_payload iso input conf r :
  process iso input conf = inr r ->
  dict_get "parsed_successfully" (processing_metadata r) = Some (JBool true) ->
  let actions := recommended_actions r in
  let found := anomalies (json_data r) in
  (In "log_schema_violation" actions <-> schema_valid (json_data r) = false)
  /\ (In "notify_integration_team" actions
      <-> schema_valid (json_data r) = false)
  /\ (In "flag_financial_review" actions
      <-> exists a, In a found /\ Spec.financial_anomaly a)
  /\ (In "log_data_quality_issue" actions <-> In "malformed_timestamp" found)
  /\ (In "quarantine_for_review" actions <-> 2 < length found)
  /\ (In "process_normally" actions <-> found = [])
  /\ (forall a, In a actions -> In a Spec.json_actions).
Proof.
  intros H Hp. cbv zeta. rewrite (process_parsed _ _ _ _ H Hp).
  apply recommend_shape.
Qed.

(** The hypotheses of the theorem hold for the payment webhook, whose
    result recommends [process_normally]. *)
Lemma C5_actions_of_parsed_payload_witness :
  exists r,
    process (fun _ => true) Examples.payment_text 0 = inr r
    /\ (In "process_normally" (recommended_actions r)
        <-> anomalies (json_data r) = []).
Proof.
  eexists. split; [vm_compute; reflexivity|].
  apply (C5_actions_of_parsed_payload (fun _ => true) Examples.payment_text 0);
    vm_compute; reflexivity.
Defined.

(** C5, as stated, fails.  A time stamp before the epoch is reported as
    [invalid_timestamp_range], yet no action is recommended: neither
    [log_data_quality_issue] nor [process_normally]. *)
Lemma C5_out_of_range_timestamp_no_action :
  (forall iso, _detect_anomalies iso Examples.early_timestamp_payload "generic"
               = inr ["invalid_timestamp_range"])
  /\ _detect_webhook_type Examples.early_timestamp_payload = inr "generic"
  /\ _validate_schema Examples.early_timestamp_payload "generic" = inr (true, [])
  /\ _recommend_actions ["invalid_timestamp_range"] true = []
  /\ ~ Spec.additive_actions ["invalid_timestamp_range"] true
        (_recommend_actions ["invalid_timestamp_range"] true).
Proof.
  repeat split; try (intros; vm_compute; reflexivity).
  intros (_ & _ & [_ H] & _). cbn in H.
  apply H. exists "invalid_timestamp_range". split; [by left | by right].
Qed.

(** An anomaly without an action of its own leaves the list empty when
    the schema check passed: a test status is reported and nothing is
    recommended. *)
Lemma test_status_no_action iso conf :
  exists r,
    process iso (Examples.json_text "{'status': 'test'}") conf = inr r
    /\ payload (json_data r) = Examples.test_status_payload
    /\ schema_valid (json_data r) = true
    /\ anomalies (json_data r) = ["suspicious_status_value"]
    /\ recommended_actions r = [].
Proof. eexists. split; [vm_compute; reflexivity | repeat split]. Qed.

End JSONProps.

(** ** The regular expression matcher *)

Section RegexProps.

Import Re.

Lemma char_eqb_eq a b : char_eqb a b = true <-> a = b.
Proof.
  unfold char_eqb, code. rewrite N.eqb_eq. split; [|by intros ->].
  intros H. rewrite <- (ascii_N_embedding a), <- (ascii_N_embedding b).
  by rewrite H.
Qed.

Lemma char_eqb_refl a : char_eqb a a = true.
Proof. by apply char_eqb_eq. Qed.

Lemma prefix_nil s : String.prefix EmptyString s = true.
Proof. by destruct s. Qed.

Lemma prefix_cons a s1 b s2 :
  String.prefix (String a s1) (String b s2)
  = if ascii_dec a b then String.prefix s1 s2 else false.
Proof. reflexivity. Qed.

Lemma prefix_cons_nil a s1 : String.prefix (String a s1) EmptyString = false.
Proof. reflexivity. Qed.

Lemma app_nil s : EmptyString +:+ s = s.
Proof. reflexivity. Qed.

Lemma app_cons c w s : String c w +:+ s = String c (w +:+ s).
Proof. reflexivity. Qed.

Lemma length_cons c w : String.length (String c w) = S (String.length w).
Proof. reflexivity. Qed.

Lemma prefix_app w rest : String.prefix w (w +:+ rest) = true.
Proof.
  induction w as [|c w IH]; [apply prefix_nil|].
  rewrite app_cons, prefix_cons.
  destruct (ascii_dec c c); [done | congruence].
Qed.

Lemma prefix_split w : forall text,
  String.prefix w text = true -> exists rest, text = w +:+ rest.
Proof.
  induction w as [|c w IH]; intros text H.
  - by exists text.
  - destruct text as [|c' text]; [discriminate|]. rewrite prefix_cons in H.
    destruct (ascii_dec c c') as [<-|]; [|discriminate].
    destruct (IH _ H) as [rest ->]. by exists rest.
Qed.

Lemma contains_split w : forall text,
  contains w text = true
  <-> exists before rest, text = before +:+ w +:+ rest.
Proof.
  induction text as [|c text IH]; cbn [contains]; rewrite orb_true_iff.
  - split.
    + intros [H|H]; [|discriminate]. destruct (prefix_split _ _ H) as [rest E].
      by exists EmptyString, rest.
    + intros (before & rest & E). left.
      destruct before; [rewrite app_nil in E; rewrite E; apply prefix_app
                       | discriminate].
  - rewrite IH. split.
    + intros [H|(before & rest & ->)].
      * destruct (prefix_split _ _ H) as [rest E]. by exists EmptyString, rest.
      * by exists (String c before), rest.
    + intros (before & rest & E).
      destruct before as [|c' before].
      * left. rewrite app_nil in E. rewrite E. apply prefix_app.
      * rewrite app_cons in E. injection E as -> ->. right.
        by exists before, rest.
Qed.

Lemma is_Some_or_else {A} (x y : option A) :
  is_Some (or_else x y) <-> is_Some x \/ is_Some y.
Proof.
  destruct x; cbn; split; try tauto; eauto.
  intros [H|H]; [by destruct H | done].
Qed.

(** A literal word under a case-sensitive match. *)
Lemma rmatch_str {A} w : forall st (k : mstate -> option A),
  rmatch false (RStr w) st k
  = if String.prefix w (m_rest st) then k (consume w st) else None.
Proof.
  induction w as [|c w IH]; intros st k; cbn [RStr rmatch consume].
  - by rewrite prefix_nil.
  - unfold step_if, lit_match.
    destruct (m_rest st) as [|c' tl] eqn:E; [done|]. rewrite prefix_cons.
    destruct (ascii_dec c c') as [<-|Hne].
    + rewrite char_eqb_refl, IH. reflexivity.
    + destruct (char_eqb c c') eqn:B; [|done].
      apply char_eqb_eq in B. contradiction.
Qed.

Lemma consume_rest w : forall st rest,
  m_rest st = w +:+ rest -> m_rest (consume w st) = rest.
Proof.
  induction w as [|c w IH]; intros st rest E; cbn [consume].
  - by destruct (m_rest st).
  - rewrite E, app_cons. apply IH. reflexivity.
Qed.

(** The leftmost search finds a match exactly when some suffix of the text
    matches at its cursor. *)
Lemma search_from_some ic r rest : forall pos prev,
  is_Some (search_from ic r pos prev rest)
  <-> exists a b, rest = a +:+ b
        /\ is_Some (match_here ic r
                      (MState (pos + String.length a) (prev_after prev a) b [])).
Proof.
  induction rest as [|c rest IH]; intros pos prev; cbn [search_from].
  - destruct (match_here ic r (MState pos prev EmptyString [])) eqn:E.
    + split; [|eauto]. intros _. exists EmptyString, EmptyString.
      cbn. rewrite Nat.add_0_r, E. eauto.
    + split; [by intros [? ?]|].
      intros (a & b & Hab & H). destruct a; [|discriminate].
      rewrite app_nil in Hab. subst b. cbn in H. rewrite Nat.add_0_r, E in H. done.
  - destruct (match_here ic r (MState pos prev (String c rest) [])) eqn:E.
    + split; [|eauto]. intros _. exists EmptyString, (String c rest).
      cbn. rewrite Nat.add_0_r, E. eauto.
    + rewrite IH. split.
      * intros (a & b & -> & H). exists (String c a), b. split; [done|].
        cbn [String.length prev_after]. by rewrite <- Nat.add_succ_comm.
      * intros (a & b & Hab & H). destruct a as [|c' a].
        -- rewrite app_nil in Hab. subst b. cbn in H. rewrite Nat.add_0_r, E in H.
           by destruct H.
        -- rewrite app_cons in Hab. injection Hab as -> ->.
           exists a, b. split; [done|].
           cbn in H. by rewrite <- Nat.add_succ_comm in H.
Qed.

Lemma found_iff ic r text :
  found ic r text = true
  <-> exists a b, text = a +:+ b
        /\ is_Some (match_here ic r
                      (MState (String.length a) (prev_after None a) b [])).
Proof.
  unfold found, search.
  rewrite <- (search_from_some ic r text 0 None).
  destruct (search_from ic r 0 None text); split; eauto; try done.
Qed.


Lemma ltb_succ n : (n <? S n) = true.
Proof. apply Nat.ltb_lt. lia. Qed.

(** A greedy repetition of a one-character test goes through while the
    continuation accepts what follows some run of matching characters. *)
Lemma star_chars_complete {A} (p : ascii -> bool) (k : mstate -> option A) w :
  forall fuel st rest,
    m_rest st = w +:+ rest -> all_chars p w = true ->
    String.length w < fuel ->
    is_Some (k (consume w st)) ->
    is_Some (star_loop (step_if p) k fuel st).
Proof.
  induction w as [|c w IH]; intros fuel st rest E Hp Hf Hk.
  - destruct fuel; [lia|]. cbn [star_loop]. apply is_Some_or_else. right.
    revert Hk. cbn [consume]. by destruct (m_rest st).
  - destruct fuel; [cbn in Hf; lia|]. cbn [star_loop].
    apply is_Some_or_else. left. unfold step_if at 1.
    rewrite E, app_cons. cbn [all_chars] in Hp.
    apply andb_true_iff in Hp as [Hc Hw]. rewrite Hc.
    cbn [advance m_pos]. rewrite ltb_succ.
    apply (IH fuel _ rest); [reflexivity | done | cbn in Hf; lia |].
    revert Hk. cbn [consume]. by rewrite E, app_cons.
Qed.

Lemma star_chars_sound {A} (p : ascii -> bool) (k : mstate -> option A) :
  forall fuel st x,
    star_loop (step_if p) k fuel st = Some x ->
    exists w rest,
      m_rest st = w +:+ rest /\ all_chars p w = true
      /\ k (consume w st) = Some x.
Proof.
  induction fuel as [|fuel IH]; intros st x H; cbn [star_loop] in H.
  - exists EmptyString, (m_rest st). by destruct (m_rest st).
  - unfold or_else in H.
    destruct (step_if p st _) as [y|] eqn:B.
    + injection H as ->. unfold step_if in B.
      destruct (m_rest st) as [|c tl] eqn:E; [done|].
      destruct (p c) eqn:Hc; [|done].
      cbn [advance m_pos] in B. rewrite ltb_succ in B.
      destruct (IH _ _ B) as (w & rest & Ew & Hw & Hk).
      cbn [advance m_rest] in Ew. subst tl. exists (String c w), rest.
      rewrite app_cons. split; [done|]. split.
      * cbn. by rewrite Hc.
      * cbn [consume]. by rewrite E.
    + exists EmptyString, (m_rest st). by destruct (m_rest st).
Qed.


Lemma star_loop_stop {A} body (k : mstate -> option A) fuel st :
  is_Some (k st) -> is_Some (star_loop body k fuel st).
Proof.
  intros H. destruct fuel; [done|]. cbn [star_loop].
  apply is_Some_or_else. by right.
Qed.

Lemma length_app a b :
  String.length (a +:+ b) = String.length a + String.length b.
Proof.
  induction a as [|c a IH]; [reflexivity|].
  rewrite app_cons. cbn [String.length]. by rewrite IH.
Qed.

Lemma app_assoc_s a b c : (a +:+ b) +:+ c = a +:+ b +:+ c.
Proof.
  induction a as [|x a IH]; [reflexivity|].
  rewrite !app_cons. by rewrite IH.
Qed.

(** A choice between literal words. *)
Lemma rmatch_words {A} ws : forall st (k : mstate -> option A),
  ws <> [] ->
  is_Some (rmatch false (RWords ws) st k)
  <-> exists word, In word ws /\ String.prefix word (m_rest st) = true
                   /\ is_Some (k (consume word st)).
Proof.
  induction ws as [|x ws IH]; intros st k Hne; [done|].
  destruct ws as [|y ws].
  - cbn [RWords]. rewrite rmatch_str. split.
    + destruct (String.prefix x (m_rest st)) eqn:P; [|by intros [? ?]].
      intros H. exists x. split; [by left | done].
    + intros (word & [<-|[]] & P & H). by rewrite P.
  - change (RWords (x :: y :: ws)) with (RAlt (RStr x) (RWords (y :: ws))).
    cbn [rmatch]. rewrite is_Some_or_else, IH by done. rewrite rmatch_str.
    split.
    + intros [H|(word & Hin & P & H)].
      * destruct (String.prefix x (m_rest st)) eqn:P; [|by destruct H].
        exists x. split; [by left | done].
      * exists word. split; [by right | done].
    + intros (word & [<-|Hin] & P & H).
      * left. by rewrite P.
      * right. by exists word.
Qed.

Lemma step_if_ext {A} p st (k1 k2 : mstate -> option A) :
  (forall st', k1 st' = k2 st') -> step_if p st k1 = step_if p st k2.
Proof.
  intros H. unfold step_if. destruct (m_rest st); [done|]. by rewrite H.
Qed.

Lemma star_loop_ext {A} (body : mstate -> (mstate -> option A) -> option A) :
  (forall st k1 k2, (forall st', k1 st' = k2 st') -> body st k1 = body st k2) ->
  forall fuel st k1 k2,
    (forall st', k1 st' = k2 st') ->
    star_loop body k1 fuel st = star_loop body k2 fuel st.
Proof.
  intros Hb. induction fuel as [|fuel IH]; intros st k1 k2 H; cbn [star_loop].
  - apply H.
  - rewrite (H st). f_equal. apply Hb. intros st'.
    destruct (_ <? _); [by apply IH | done].
Qed.

Lemma lazy_loop_ext {A} (body : mstate -> (mstate -> option A) -> option A) :
  (forall st k1 k2, (forall st', k1 st' = k2 st') -> body st k1 = body st k2) ->
  forall fuel st k1 k2,
    (forall st', k1 st' = k2 st') ->
    lazy_loop body k1 fuel st = lazy_loop body k2 fuel st.
Proof.
  intros Hb. induction fuel as [|fuel IH]; intros st k1 k2 H; cbn [lazy_loop].
  - apply H.
  - rewrite (H st). f_equal. apply Hb. intros st'.
    destruct (_ <? _); [by apply IH | done].
Qed.

(** The matcher only uses its continuation through its values. *)
Lemma rmatch_ext {A} ic r : forall st (k1 k2 : mstate -> option A),
  (forall st', k1 st' = k2 st') -> rmatch ic r st k1 = rmatch ic r st k2.
Proof.
  induction r as [| | | |r1 IH1 r2 IH2|r1 IH1 r2 IH2|r1 IH1|r1 IH1|g r1 IH1| |];
    intros st k1 k2 H; cbn [rmatch];
    try (by apply step_if_ext); try (by rewrite H).
  - apply IH1. intros st'. by apply IH2.
  - by rewrite (IH1 st k1 k2 H), (IH2 st k1 k2 H).
  - by apply star_loop_ext.
  - by apply lazy_loop_ext.
  - apply IH1. intros st'. apply H.
Qed.

Lemma shift_advance n st c tl :
  shift n (advance st c tl) = advance (shift n st) c tl.
Proof. unfold shift, advance. cbn. by rewrite Nat.add_succ_r. Qed.

Lemma step_if_shift {A} p n st (k : mstate -> option A) :
  step_if p (shift n st) k = step_if p st (fun st' => k (shift n st')).
Proof.
  unfold step_if. cbn [shift m_rest]. destruct (m_rest st) as [|c tl]; [done|].
  destruct (p c); [|done]. by rewrite shift_advance.
Qed.

Lemma set_cap_shift g n from to :
  set_cap g (shift n from) (shift n to) = shift n (set_cap g from to).
Proof.
  unfold set_cap, shift. cbn [m_pos m_prev m_rest m_caps].
  replace (n + m_pos to - (n + m_pos from)) with (m_pos to - m_pos from) by lia.
  reflexivity.
Qed.

Lemma shift_ltb n st0 st1 :
  (m_pos (shift n st0) <? m_pos (shift n st1)) = (m_pos st0 <? m_pos st1).
Proof.
  cbn [shift m_pos].
  destruct (Nat.ltb_spec (m_pos st0) (m_pos st1)) as [H|H];
    [apply Nat.ltb_lt | apply Nat.ltb_ge]; lia.
Qed.

Lemma star_loop_shift {A} (body : mstate -> (mstate -> option A) -> option A) n :
  (forall st k1 k2, (forall st', k1 st' = k2 st') -> body st k1 = body st k2) ->
  (forall st k, body (shift n st) k = body st (fun st' => k (shift n st'))) ->
  forall fuel st k,
    star_loop body k fuel (shift n st)
    = star_loop body (fun st' => k (shift n st')) fuel st.
Proof.
  intros He Hs. induction fuel as [|fuel IH]; intros st k; [done|].
  cbn [star_loop]. f_equal. rewrite Hs. apply He. intros st'.
  rewrite shift_ltb. destruct (_ <? _); [apply IH | done].
Qed.

Lemma lazy_loop_shift {A} (body : mstate -> (mstate -> option A) -> option A) n :
  (forall st k1 k2, (forall st', k1 st' = k2 st') -> body st k1 = body st k2) ->
  (forall st k, body (shift n st) k = body st (fun st' => k (shift n st'))) ->
  forall fuel st k,
    lazy_loop body k fuel (shift n st)
    = lazy_loop body (fun st' => k (shift n st')) fuel st.
Proof.
  intros He Hs. induction fuel as [|fuel IH]; intros st k; [done|].
  cbn [lazy_loop]. f_equal. rewrite Hs. apply He. intros st'.
  rewrite shift_ltb. destruct (_ <? _); [apply IH | done].
Qed.

(** A pattern without anchor matches alike wherever the text starts. *)
Lemma rmatch_shift {A} ic n r : unanchored r = true ->
  forall st (k : mstate -> option A),
    rmatch ic r (shift n st) k = rmatch ic r st (fun st' => k (shift n st')).
Proof.
  induction r as [| | | |r1 IH1 r2 IH2|r1 IH1 r2 IH2|r1 IH1|r1 IH1|g r1 IH1| |];
    intros Hu st k; cbn [rmatch unanchored] in *;
    try (by apply step_if_shift); try done.
  - apply andb_true_iff in Hu as [H1 H2]. rewrite IH1 by done.
    apply rmatch_ext. intros st'. by apply IH2.
  - apply andb_true_iff in Hu as [H1 H2]. by rewrite IH1, IH2.
  - apply star_loop_shift; [apply rmatch_ext | by apply IH1].
  - apply lazy_loop_shift; [apply rmatch_ext | by apply IH1].
  - rewrite IH1 by done. apply rmatch_ext. intros st'.
    by rewrite set_cap_shift.
Qed.

End RegexProps.

(** ** The email agent *)

Section EmailProps.

Import Re EmailAgent.

Lemma exclamations_here st :
  is_Some (match_here false exclamations st)
  <-> String.prefix "!!" (m_rest st) = true.
Proof.
  unfold match_here, exclamations, RAtLeast. cbn [RTimes rmatch].
  unfold step_if at 1, lit_match.
  destruct (m_rest st) as [|c1 r1] eqn:E1; [by split; [intros [? ?]|]|].
  rewrite prefix_cons.
  destruct (ascii_dec "!" c1) as [<-|N1].
  - rewrite char_eqb_refl. unfold step_if at 1. cbn [advance m_rest].
    destruct r1 as [|c2 r2]; [by split; [intros [? ?]|]|].
    rewrite prefix_cons.
    destruct (ascii_dec "!" c2) as [<-|N2].
    + rewrite char_eqb_refl, prefix_nil. split; [done|]. intros _.
      by apply star_loop_stop.
    + destruct (char_eqb "!" c2) eqn:B; [by apply char_eqb_eq in B|].
      by split; [intros [? ?]|].
  - destruct (char_eqb "!" c1) eqn:B; [by apply char_eqb_eq in B|].
    by split; [intros [? ?]|].
Qed.

Lemma found_exclamations text :
  found false exclamations text = true <-> Spec.double_exclamation text.
Proof.
  unfold Spec.double_exclamation. rewrite found_iff, contains_split. split.
  - intros (a & b & -> & H). apply exclamations_here in H. cbn [m_rest] in H.
    destruct (prefix_split _ _ H) as [rest ->]. by exists a, rest.
  - intros (before & rest & ->). exists before, ("!!" +:+ rest).
    split; [done|]. apply exclamations_here. apply prefix_app.
Qed.


Lemma set_match_space c : set_match false [CSpace] c = is_space c.
Proof. unfold set_match. cbn. by rewrite !orb_false_r. Qed.

Lemma all_chars_ext p q w :
  (forall c, p c = q c) -> all_chars p w = all_chars q w.
Proof. intros H. induction w as [|c w IH]; cbn; by rewrite ?H, ?IH. Qed.

Lemma all_chars_space w :
  all_chars (set_match false [CSpace]) w = Spec.all_space w.
Proof.
  induction w as [|c w IH]; cbn; [done|]. by rewrite set_match_space, IH.
Qed.

Lemma deadline_here st :
  is_Some (match_here false deadline st)
  <-> exists c ws phrase rest,
        m_rest st = "by" +:+ String c ws +:+ phrase +:+ rest
        /\ is_space c = true /\ Spec.all_space ws = true
        /\ In phrase Spec.deadline_phrases.
Proof.
  unfold match_here, deadline, RSeq, RPlus. cbn [foldr].
  change (rmatch false (RCat (RStr "by") ?r) st Some)
    with (rmatch false (RStr "by") st (fun st1 => rmatch false r st1 Some)).
  rewrite rmatch_str.
  destruct (String.prefix "by" (m_rest st)) eqn:P.
  2:{ split; [by intros [? ?]|]. intros (c & ws & phrase & rest & E & _).
      rewrite E, prefix_app in P. discriminate. }
  destruct (prefix_split _ _ P) as [r1 E1].
  pose proof (consume_rest "by" st r1 E1) as E2.
  set (st1 := consume "by" st) in *. clearbody st1.
  cbn [rmatch s]. unfold step_if at 1. rewrite E2.
  destruct r1 as [|c r2].
  { split; [by intros [? ?]|]. intros (c & ws & phrase & rest & E & _).
    rewrite E in E1. discriminate. }
  rewrite set_match_space.
  destruct (is_space c) eqn:Hc.
  2:{ split; [by intros [? ?]|]. intros (c' & ws & phrase & rest & E & Hc' & _).
      rewrite E in E1. injection E1 as -> _. congruence. }
  set (st2 := advance st1 c r2).
  set (K := fun st3 : mstate =>
              rmatch false (RWords ["today"; "tomorrow"; "end of day"; "eod"])
                     st3 (fun st4 => rmatch false REmpty st4 Some)).
  match goal with
  | |- _ <-> ?R =>
      change (is_Some (star_loop (step_if (set_match false [CSpace])) K
                                 (S (String.length (m_rest st2))) st2) <-> R)
  end.
  assert (HK : forall st3, is_Some (K st3)
                 <-> exists phrase, In phrase Spec.deadline_phrases
                       /\ String.prefix phrase (m_rest st3) = true).
  { intros st3. unfold K. rewrite rmatch_words by done. split.
    - intros (word & Hin & Hp & _). by exists word.
    - intros (word & Hin & Hp). exists word. cbn [rmatch]. eauto. }
  split.
  - intros [x H]. apply star_chars_sound in H as (w & rest & Ew & Hw & Hk).
    assert (Hs : is_Some (K (consume w st2))) by eauto.
    apply HK in Hs as (phrase & Hin & Hp).
    rewrite (consume_rest w st2 rest Ew) in Hp.
    destruct (prefix_split _ _ Hp) as [rest' ->].
    exists c, w, phrase, rest'. rewrite all_chars_space in Hw.
    cbn [m_rest st2 advance] in Ew. subst r2. by rewrite E1.
  - intros (c' & ws & phrase & rest & E & Hc' & Hws & Hin).
    rewrite E in E1. injection E1 as <- <-.
    apply (star_chars_complete _ _ ws _ _ (phrase +:+ rest)).
    + reflexivity.
    + by rewrite all_chars_space.
    + cbn [m_rest st2 advance]. rewrite length_app. lia.
    + apply HK. exists phrase. split; [done|].
      rewrite (consume_rest ws st2 (phrase +:+ rest)) by reflexivity.
      apply prefix_app.
Qed.

Lemma found_deadline text :
  found false deadline text = true <-> Spec.same_day_deadline text.
Proof.
  unfold Spec.same_day_deadline. rewrite found_iff. split.
  - intros (a & b & -> & H). apply deadline_here in H.
    destruct H as (c & ws & phrase & rest & E & Hc & Hws & Hin).
    cbn [m_rest] in E. subst b. by exists a, c, ws, phrase, rest.
  - intros (before & c & ws & phrase & rest & -> & Hc & Hws & Hin).
    eexists before, _. split; [reflexivity|]. apply deadline_here.
    by exists c, ws, phrase, rest.
Qed.

Lemma existsb_tier keywords text_lower :
  existsb (fun keyword => contains keyword text_lower) keywords = true
  <-> Spec.tier_matches keywords text_lower.
Proof. apply existsb_exists. Qed.

Lemma first_tier_hit table text_lower : forall pre tier keywords post,
  table = pre ++ (tier, keywords) :: post ->
  Spec.tier_matches keywords text_lower ->
  (forall t ks, In (t, ks) pre -> ~ Spec.tier_matches ks text_lower) ->
  first_tier table text_lower = Some tier.
Proof.
  intros pre. revert table.
  induction pre as [|[t ks] pre IH]; intros table tier keywords post -> Hm Hpre.
  - cbn [app first_tier]. apply existsb_tier in Hm. by rewrite Hm.
  - cbn [app first_tier].
    destruct (existsb _ ks) eqn:B.
    + apply existsb_tier in B. destruct (Hpre t ks); [by left | done].
    + apply (IH _ tier keywords post); [reflexivity | exact Hm |].
      intros t' ks' Hin. apply (Hpre t' ks'). by right.
Qed.

Lemma first_tier_miss table text_lower :
  (forall t ks, In (t, ks) table -> ~ Spec.tier_matches ks text_lower) ->
  first_tier table text_lower = None.
Proof.
  induction table as [|[t ks] table IH]; intros H; [done|].
  cbn [first_tier]. destruct (existsb _ ks) eqn:B.
  - apply existsb_tier in B. destruct (H t ks); [by left | done].
  - apply IH. intros t' ks' Hin. apply (H t' ks'). by right.
Qed.

(** C4, as amended.  The tiers are declared in the order CRITICAL, HIGH,
    MEDIUM, LOW, and the first tier with a keyword in the lowered text
    gives the urgency, whatever else the text holds.  Only when no tier
    has a keyword are the two patterns tried: two or more consecutive
    exclamation marks, or [by] followed by white space and one of
    [today], [tomorrow], [end of day], [eod], give HIGH; without either,
    the urgency is MEDIUM. *)
Theorem C4_determine_urgency (email_text : string) :
  let text_lower := lower email_text in
  let urgency := _determine_urgency email_text in
  map fst urgency_keywords = [CRITICAL; HIGH; MEDIUM; LOW]
  /\ (forall pre tier keywords post,
        urgency_keywords = pre ++ (tier, keywords) :: post ->
        Spec.tier_matches keywords text_lower ->
        (forall t ks, In (t, ks) pre -> ~ Spec.tier_matches ks text_lower) ->
        urgency = tier)
  /\ ((forall t ks, In (t, ks) urgency_keywords ->
                    ~ Spec.tier_matches ks text_lower) ->
      (Spec.double_exclamation email_text \/ Spec.same_day_deadline text_lower
       -> urgency = HIGH)
      /\ (~ Spec.double_exclamation email_text ->
          ~ Spec.same_day_deadline text_lower -> urgency = MEDIUM)).
Proof.
  cbv zeta. split; [reflexivity|]. unfold _determine_urgency. split.
  - intros pre tier keywords post E Hm Hpre.
    by rewrite (first_tier_hit _ _ pre tier keywords post E Hm Hpre).
  - intros Hnone. rewrite (first_tier_miss _ _ Hnone).
    split.
    + intros [H|H].
      * apply found_exclamations in H. by rewrite H.
      * apply found_deadline in H. rewrite H. by destruct (found false exclamations _).
    + intros H1 H2.
      destruct (found false exclamations email_text) eqn:B1;
        [by apply found_exclamations in B1|].
      destruct (found false deadline (lower email_text)) eqn:B2;
        [by apply found_deadline in B2|].
      reflexivity.
Qed.

(** C4, as stated, fails.  The text shows both overrides, two exclamation
    marks and the phrase [by today], yet its urgency is LOW: the keyword
    [whenever] is looked up first, and the two patterns are only tried
    when no keyword is found. *)
Lemma C4_keyword_before_override :
  Spec.double_exclamation "whenever!! by today"
  /\ Spec.same_day_deadline (lower "whenever!! by today")
  /\ _determine_urgency "whenever!! by today" = LOW
  /\ ~ Spec.overrides_first "whenever!! by today"
        (_determine_urgency "whenever!! by today").
Proof.
  assert (D : Spec.double_exclamation "whenever!! by today") by reflexivity.
  repeat apply conj; [exact D | | reflexivity |].
  - exists "whenever!! ", " "%char, EmptyString, "today", EmptyString.
    repeat apply conj; [reflexivity | reflexivity | reflexivity |].
    cbn. tauto.
  - intros H. specialize (H (or_introl D)). discriminate H.
Qed.

End EmailProps.

(** ** The PDF agent *)

Section PDFProps.

Import Re PDFAgent.

Lemma lower_app a b : lower (a +:+ b) = lower a +:+ lower b.
Proof.
  induction a as [|c a IH]; [reflexivity|].
  rewrite app_cons. cbn [lower]. by rewrite IH, app_cons.
Qed.

(** Under IGNORECASE a literal word matches only where the lowered text
    starts with the lowered word. *)
Lemma rmatch_str_nocase {A} w : forall st (k : mstate -> option A),
  String.prefix (lower w) (lower (m_rest st)) = false ->
  rmatch true (RStr w) st k = None.
Proof.
  induction w as [|c w IH]; intros st k H.
  - cbn [lower] in H. by rewrite prefix_nil in H.
  - cbn [RStr rmatch]. unfold step_if, lit_match.
    destruct (m_rest st) as [|c' tl] eqn:E; [done|].
    cbn [lower] in H. rewrite prefix_cons in H.
    destruct (char_eqb (lower_char c) (lower_char c')) eqn:B; [|done].
    apply char_eqb_eq in B. rewrite B in H.
    destruct (ascii_dec (lower_char c') (lower_char c')); [|done].
    apply IH. by cbn [advance m_rest].
Qed.

(** The search moves over a stretch of text in which no match starts. *)
Lemma search_from_skip ic r a : forall b pos prev,
  (forall a1 c a2, a = a1 +:+ String c a2 ->
     match_here ic r (MState (pos + String.length a1) (prev_after prev a1)
                             (String c a2 +:+ b) []) = None) ->
  search_from ic r pos prev (a +:+ b)
  = search_from ic r (pos + String.length a) (prev_after prev a) b.
Proof.
  induction a as [|c a IH]; intros b pos prev H.
  - rewrite app_nil. cbn. by rewrite Nat.add_0_r.
  - rewrite app_cons. cbn [search_from].
    pose proof (H EmptyString c a eq_refl) as H0.
    cbn [String.length prev_after] in H0. rewrite Nat.add_0_r, app_cons in H0.
    rewrite H0. rewrite IH.
    + cbn [String.length prev_after]. by rewrite Nat.add_succ_comm.
    + intros a1 c' a2 ->. specialize (H (String c a1) c' a2 eq_refl).
      cbn [String.length prev_after] in H. by rewrite <- Nat.add_succ_comm in H.
Qed.

Lemma total_here n prev rest :
  match_here true total_pattern
             (MState n prev (Examples.total_line +:+ rest) [])
  = Some (MState (n + 17) (Some "0"%char) rest [(1, "12,500.00")]).
Proof.
  replace n with (n + 0) at 1 by lia.
  change (MState (n + 0) prev (Examples.total_line +:+ rest) [])
    with (shift n (MState 0 prev (Examples.total_line +:+ rest) [])).
  unfold match_here. rewrite rmatch_shift by reflexivity.
  destruct rest; vm_compute; reflexivity.
Qed.

Lemma contains_false_cons w c text :
  contains w (String c text) = false ->
  String.prefix w (String c text) = false /\ contains w text = false.
Proof. cbn [contains]. by intros [? ?]%orb_false_iff. Qed.

Lemma contains_false_suffix w a : forall b,
  contains w (a +:+ b) = false -> contains w b = false.
Proof.
  induction a as [|c a IH]; intros b H; [done|].
  rewrite app_cons in H. apply contains_false_cons in H as [_ H]. by apply IH.
Qed.

Ltac split_chars :=
  repeat match goal with
         | |- context [ascii_dec ?a ?b] =>
             destruct (ascii_dec a b) as [?|?]; try discriminate; subst
         | H : context [ascii_dec ?a ?b] |- _ =>
             destruct (ascii_dec a b) as [?|?]; try discriminate; subst
         end.

(** No match of the word [total] starts in a stretch of lowered text that
    does not contain it, even when the total line follows. *)
Lemma no_total_across b rest :
  String.prefix "total" b = false -> b <> EmptyString ->
  String.prefix "total" (b +:+ "total: $12,500.00" +:+ rest) = false.
Proof.
  intros H Hne.
  destruct b as [|c1 [|c2 [|c3 [|c4 [|c5 b]]]]]; [done|..];
    rewrite ?app_cons, ?app_nil, ?prefix_cons, ?prefix_nil in *;
    split_chars; try done.
Qed.

Lemma total_not_before a1 c a2 rest n prev :
  contains "total" (lower (a1 +:+ String c a2)) = false ->
  match_here true total_pattern
    (MState n prev (String c a2 +:+ Examples.total_line +:+ rest) []) = None.
Proof.
  intros H. rewrite lower_app in H. apply contains_false_suffix in H.
  cbn [lower] in H. apply contains_false_cons in H as [H _].
  unfold match_here, total_pattern. cbn [RSeq foldr rmatch].
  apply rmatch_str_nocase. cbn [m_rest].
  rewrite !lower_app.
  change (lower "total") with "total".
  change (lower Examples.total_line) with "total: $12,500.00".
  apply no_total_across; [exact H | done].
Qed.

Lemma search_total pre rest :
  contains "total" (lower pre) = false ->
  exists m,
    search true total_pattern (pre +:+ Examples.total_line +:+ rest) = Some m
    /\ group 1 m = "12,500.00".
Proof.
  intros H. unfold search. rewrite search_from_skip.
  - destruct (Examples.total_line +:+ rest) as [|c tl] eqn:E.
    { unfold Examples.total_line in E. rewrite app_cons in E. discriminate. }
    cbn [search_from]. rewrite <- E, total_here. eexists. split; reflexivity.
  - intros a1 c a2 ->. by apply (total_not_before a1).
Qed.


Lemma extract_total_first patterns text : forall pre pattern post m v,
  patterns = pre ++ pattern :: post ->
  (forall q, In q pre -> Spec.unusable q text) ->
  search true pattern text = Some m ->
  Num.float_of_str (remove_char "," (group 1 m)) = inr v ->
  extract_total patterns text = Some v.
Proof.
  intros pre. revert patterns.
  induction pre as [|q pre IH]; intros patterns pattern post m v -> Hpre Hs Hv.
  - cbn [app extract_total]. by rewrite Hs, Hv.
  - cbn [app extract_total].
    assert (Hq : Spec.unusable q text) by (apply Hpre; by left).
    assert (Hrest : extract_total (pre ++ pattern :: post) text = Some v).
    { apply (IH _ pattern post m v); [done | | done | done].
      intros q' Hin. apply Hpre. by right. }
    destruct Hq as [->|(m' & e & -> & ->)]; exact Hrest.
Qed.

Lemma extract_total_none patterns text :
  (forall q, In q patterns -> search true q text = None) ->
  extract_total patterns text = None.
Proof.
  induction patterns as [|q patterns IH]; intros H; [done|].
  cbn [extract_total]. rewrite (H q) by (by left).
  apply IH. intros q' Hin. apply H. by right.
Qed.

Lemma in_grow {A} (x : A) (b : bool) l l' :
  In x l -> In x (if b then l ++ l' else l).
Proof. destruct b; [|done]. intros H. apply in_or_app. by left. Qed.

Lemma high_value_flag text q :
  (10000 < q)%Q ->
  In "high_value_invoice"
     (_check_compliance_flags text "invoice" (Some (FFin q))).
Proof.
  intros Hq. unfold _check_compliance_flags.
  assert (E : String.eqb "invoice" "invoice" && truthy (Some (FFin q))
              && exceeds (Some (FFin q)) 10000 = true).
  { cbn [truthy exceeds fgt flt of_Z andb].
    change (String.eqb "invoice" "invoice") with true. cbn [andb].
    rewrite andb_true_iff. split.
    - apply negb_true_iff. destruct (Qeq_bool q 0) eqn:B; [|done].
      apply Qeq_bool_eq in B. rewrite B in Hq. done.
    - apply negb_true_iff. destruct (Qle_bool q (inject_Z 10000)) eqn:B; [|done].
      apply Qle_bool_imp_le in B. exfalso. apply (Qlt_not_le _ _ Hq B). }
  rewrite E. cbn [app].
  repeat apply in_grow.
  destruct (extract_keywords text compliance_keywords); by left.
Qed.

Lemma process_total text :
  _determine_document_type text = "invoice" ->
  document_type (pdf_data (process text)) = "invoice"
  /\ total_amount (pdf_data (process text)) = extract_total total_patterns text
  /\ flags (pdf_data (process text))
     = _check_compliance_flags text "invoice"
         (extract_total total_patterns text).
Proof.
  intros Ht. unfold process. rewrite Ht.
  change (String.eqb "invoice" "invoice") with true. cbv iota.
  unfold _extract_invoice_data. by cbn.
Qed.

(** C8, as amended.  For a text classified as an invoice, the total is the
    converted capture of the first pattern of the list (total, then amount
    due) that has a match whose capture converts; it is absent when no
    pattern matches.  A text that holds the keyword [invoice] and the line
    [Total: $12,500.00], with no occurrence of the word [total] (in any
    letter case) before that line, is an invoice with total 12500.00 and
    the flag [high_value_invoice]. *)
Theorem C8_invoice_total (pre rest : string) :
  let text := pre +:+ Examples.total_line +:+ rest in
  contains "invoice" (lower text) = true ->
  contains "total" (lower pre) = false ->
  let data := pdf_data (process text) in
  (document_type data = "invoice"
   /\ (exists q, total_amount data = Some (FFin q) /\ (q == 12500)%Q)
   /\ In "high_value_invoice" (flags data))
  /\ (forall doc before pattern after m v,
        _determine_document_type doc = "invoice" ->
        total_patterns = before ++ pattern :: after ->
        (forall q, In q before -> Spec.unusable q doc) ->
        search true pattern doc = Some m ->
        Num.float_of_str (remove_char "," (group 1 m)) = inr v ->
        total_amount (pdf_data (process doc)) = Some v)
  /\ (forall doc,
        _determine_document_type doc = "invoice" ->
        (forall q, In q total_patterns -> search true q doc = None) ->
        total_amount (pdf_data (process doc)) = None).
Proof.
  cbv zeta. intros Hinv Hpre.
  set (text := pre +:+ Examples.total_line +:+ rest) in *.
  split; [|split].
  - assert (Ht : _determine_document_type text = "invoice").
    { unfold _determine_document_type, any_in. cbn [existsb]. by rewrite Hinv. }
    destruct (search_total pre rest Hpre) as (m & Hs & Hg). fold text in Hs.
    assert (Hv : extract_total total_patterns text = Some (FFin 12500)).
    { apply (extract_total_first _ _ [] total_pattern [amount_due_pattern] m);
        [reflexivity | by intros ? [] | exact Hs |].
      rewrite Hg. vm_compute. reflexivity. }
    destruct (process_total text Ht) as (-> & -> & ->). rewrite Hv.
    split; [reflexivity|]. split.
    + eexists. split; reflexivity.
    + apply high_value_flag. reflexivity.
  - intros doc before pattern after m v Ht E Hb Hs Hf.
    destruct (process_total doc Ht) as (_ & -> & _).
    by apply (extract_total_first _ _ before pattern after m v).
  - intros doc Ht Hn. destruct (process_total doc Ht) as (_ & -> & _).
    by apply extract_total_none.
Qed.

(** The hypotheses of the theorem hold for the heading [Invoice] followed
    by the total line. *)
Lemma C8_invoice_total_witness :
  document_type (pdf_data (process Examples.plain_invoice)) = "invoice"
  /\ (exists q, total_amount (pdf_data (process Examples.plain_invoice))
               = Some (FFin q) /\ (q == 12500)%Q)
  /\ In "high_value_invoice" (flags (pdf_data (process Examples.plain_invoice))).
Proof.
  apply (C8_invoice_total Examples.invoice_heading EmptyString);
    vm_compute; reflexivity.
Defined.

(** C8, as stated, fails.  The text holds the keyword [invoice] and the
    line [Total: $12,500.00], but the pattern first matches inside
    [subtotal: 5]: the total is 5 and the flag is absent. *)
Lemma C8_subtotal_taken_as_total :
  contains "invoice" (lower Examples.subtotal_invoice) = true
  /\ contains Examples.total_line Examples.subtotal_invoice = true
  /\ total_amount (pdf_data (process Examples.subtotal_invoice))
     = Some (FFin (inject_Z 5))
  /\ ~ In "high_value_invoice"
        (flags (pdf_data (process Examples.subtotal_invoice))).
Proof.
  repeat split; try (vm_compute; reflexivity).
  vm_compute. intros []; done.
Qed.

End PDFProps.

(** ** The classifier *)

Section ClassifierProps.

Import Re Classifier.

Lemma fold_count {A} (p : A -> bool) (l : list A) : forall n,
  fold_left (fun n x => if p x then n + 1 else n) l n
  = n + length (List.filter p l).
Proof.
  induction l as [|x l IH]; intros n; cbn [fold_left List.filter].
  - cbn. lia.
  - rewrite IH. destruct (p x); cbn [length]; lia.
Qed.

Lemma fold_sum {A} (f : A -> nat) (l : list A) : forall n,
  fold_left (fun n x => n + f x) l n = n + list_sum (map f l).
Proof.
  induction l as [|x l IH]; intros n; cbn [fold_left map].
  - cbn. lia.
  - rewrite IH. change (list_sum (f x :: map f l)) with (f x + list_sum (map f l)). lia.
Qed.

Lemma filter_length_le {A} (p : A -> bool) (l : list A) :
  length (List.filter p l) <= length l.
Proof.
  induction l as [|x l IH]; cbn; [lia|]. destruct (p x); cbn; lia.
Qed.

(** The tables are short: every mean the classifier can form is checked
    by evaluation. *)
Lemma close_mean_upto (b d : nat) :
  forallb (fun a => forallb (fun c => Spec.close_mean a b c d) (seq 0 (S d)))
          (seq 0 (S b)) = true ->
  forall a c, a <= b -> c <= d -> Spec.close_mean a b c d = true.
Proof.
  intros H a c Ha Hc. rewrite forallb_forall in H.
  specialize (H a). rewrite forallb_forall in H.
  apply H; apply in_seq; lia.
Qed.

Lemma mean_of_shares_tables (b d a c : nat) :
  In b [6; 7] -> In d [1; 7; 8] -> a <= b -> c <= d ->
  Spec.close_mean a b c d = true.
Proof.
  intros Hb Hd. revert a c.
  cbn [In] in Hb, Hd.
  destruct Hb as [<-|[<-|[]]]; destruct Hd as [<-|[<-|[<-|[]]]];
    apply close_mean_upto; vm_compute; reflexivity.
Qed.

Lemma intent_keyword_lower i k :
  In k (table_get i [] intent_keywords) -> lower k = k.
Proof.
  destruct i; cbn; intros H;
    repeat (destruct H as [<-|H]; [reflexivity|]); destruct H.
Qed.

(** C2.  The classifier always returns a result.  Its confidence is the
    mean of two shares, the share of the chosen format's patterns that are
    found in the input (case-insensitively) and the share of the chosen
    intent's keywords that occur in the lowered input, each with its
    denominator floored at 1; the two divisions, the sum and the halving
    are Python's, on floats.  The score lies between 0 and 1, and it is
    within 2^-53 of the same mean taken over the rationals. *)
Theorem C2_confidence input :
  exists r f i,
    process input = inr r
    /\ format_type r = _detect_format input
    /\ business_intent r = _detect_intent input
    /\ Spec.format_share (format_type r) input = inr f
    /\ Spec.intent_share (business_intent r) input = inr i
    /\ Num.float_div_int (Num.fadd f i) 2 = inr (FFin (confidence_score r))
    /\ (0 <= confidence_score r <= 1)%Q
    /\ (Qabs (confidence_score r
              - (Spec.format_fraction (format_type r) input
                 + Spec.intent_fraction (business_intent r) input) / 2)
        <= 1 # 9007199254740992)%Q.
Proof.
  unfold process.
  set (fm := _detect_format input). set (im := _detect_intent input).
  assert (E : _calculate_confidence input fm im
              = Spec.mean_of_shares (Spec.format_matches fm input)
                               (Spec.format_total fm)
                               (Spec.intent_matches im input)
                               (Spec.intent_total im)).
  { unfold _calculate_confidence, Spec.mean_of_shares, Spec.format_matches,
      Spec.intent_matches, Spec.format_total, Spec.intent_total.
    cbv zeta. rewrite !fold_count. cbn [Nat.add].
    rewrite (List.filter_ext_in
               (fun k => contains (lower k) (lower input))
               (fun k => contains k (lower input))); [reflexivity|].
    intros k Hk. by rewrite (intent_keyword_lower im k Hk). }
  rewrite E.
  assert (C : Spec.close_mean (Spec.format_matches fm input) (Spec.format_total fm)
                         (Spec.intent_matches im input) (Spec.intent_total im)
              = true).
  { apply mean_of_shares_tables.
    - destruct fm; cbn; tauto.
    - destruct im; cbn; tauto.
    - unfold Spec.format_matches, Spec.format_total.
      pose proof (filter_length_le (fun p => found true p input)
                    (table_get fm [] format_patterns)). lia.
    - unfold Spec.intent_matches, Spec.intent_total.
      pose proof (filter_length_le (fun k => contains k (lower input))
                    (table_get im [] intent_keywords)). lia. }
  unfold Spec.close_mean in C. unfold Spec.format_share, Spec.intent_share.
  unfold Spec.format_fraction, Spec.intent_fraction.
  unfold Spec.exact_mean in C.
  set (a := Spec.format_matches fm input) in *.
  set (b := Spec.format_total fm) in *.
  set (c := Spec.intent_matches im input) in *.
  set (d := Spec.intent_total im) in *.
  unfold Spec.mean_of_shares in *.
  destruct (Num.int_true_div a b) as [e|f] eqn:Ef; [discriminate|].
  destruct (Num.int_true_div c d) as [e|i] eqn:Ei; [discriminate|].
  cbn [bind] in *.
  destruct (Num.float_div_int (Num.fadd f i) 2) as [e|[q| |]] eqn:Em;
    try discriminate.
  apply andb_prop in C as [C C3]. apply andb_prop in C as [C1 C2].
  cbn [bind]. unfold new_ClassificationResult. rewrite C1, C2. cbn [andb].
  eexists _, f, i. cbn [format_type business_intent confidence_score].
  apply Qle_bool_iff in C1, C2, C3.
  repeat apply conj; (reflexivity || assumption).
Qed.


(** The rounding shows on the one-word text [invoice]: one pattern of
    seven and one keyword of eight give the double next to 15/112. *)
Lemma confidence_is_rounded :
  process "invoice"
  = inr {| format_type := PDF; business_intent := INVOICE;
           confidence_score := 4825285315039817 # 36028797018963968 |}
  /\ (Spec.exact_mean 1 7 1 8 == 15 # 112)%Q.
Proof. split; vm_compute; reflexivity. Qed.

Lemma format_score_sum patterns input :
  format_score patterns input
  = list_sum (map (fun pattern => length (findall true pattern input)) patterns).
Proof. unfold format_score. by rewrite fold_sum. Qed.

Lemma format_score_total f input :
  table_get f 0 (format_scores input) = Spec.matches_total f input.
Proof.
  unfold Spec.matches_total, format_scores.
  destruct f; rewrite <- format_score_sum; reflexivity.
Qed.

Lemma detect_format_cases input :
  let e := Spec.matches_total EMAIL input in
  let j := Spec.matches_total JSON input in
  let p := Spec.matches_total PDF input in
  let best := if e <? j then (if j <? p then PDF else JSON)
              else (if e <? p then PDF else EMAIL) in
  _detect_format input
  = if 0 <? Spec.matches_total best input then best
    else format_fallback input.
Proof.
  cbv zeta. unfold _detect_format. cbv zeta.
  change (map fst (format_scores input)) with [EMAIL; JSON; PDF].
  unfold py_max. cbn [fold_left]. rewrite !format_score_total.
  destruct (Spec.matches_total EMAIL input <? Spec.matches_total JSON input);
    cbv iota beta; rewrite ?format_score_total;
    [ destruct (Spec.matches_total JSON input <? Spec.matches_total PDF input)
    | destruct (Spec.matches_total EMAIL input <? Spec.matches_total PDF input) ];
    cbv iota beta; rewrite ?format_score_total; reflexivity.
Qed.

Lemma position_format f :
  Spec.position f (map fst format_patterns)
  = match f with EMAIL => 0 | JSON => 1 | PDF => 2 end.
Proof. destruct f; reflexivity. Qed.

Lemma declared_before_cases f g :
  Spec.declared_before f g <->
  match f, g with
  | EMAIL, JSON | EMAIL, PDF | JSON, PDF => True
  | _, _ => False
  end.
Proof.
  unfold Spec.declared_before. rewrite !position_format.
  destruct f, g; split; (lia || done).
Qed.

(** C3.  The formats are declared in the order EMAIL, JSON, PDF.  When
    some format has a match, the detected format has the highest total of
    matches, and every format declared before it has strictly fewer: on a
    tie the earlier one wins.  When no format has a
    match, the result is JSON if the stripped input starts with a brace,
    else EMAIL if the input holds an at sign and its lowered text holds
    [subject:] or [from:], else PDF. *)
Theorem C3_detect_format input :
  let best := _detect_format input in
  let score f := Spec.matches_total f input in
  map fst format_patterns = [EMAIL; JSON; PDF]
  /\ ((exists f, 0 < score f) ->
     0 < score best
     /\ (forall f, score f <= score best)
     /\ (forall f, Spec.declared_before f best -> score f < score best))
  /\ ((forall f, score f = 0) ->
      best = if startswith "{" (strip input) then JSON
             else if contains "@" input
                     && (contains "subject:" (lower input)
                         || contains "from:" (lower input))
             then EMAIL
             else PDF).
Proof.
  cbv zeta. split; [reflexivity|]. rewrite detect_format_cases. cbv zeta.
  set (e := Spec.matches_total EMAIL input).
  set (j := Spec.matches_total JSON input).
  set (p := Spec.matches_total PDF input).
  assert (S : forall f, Spec.matches_total f input
                        = match f with EMAIL => e | JSON => j | PDF => p end)
    by (intros []; reflexivity).
  split.
  - intros [f Hf]. rewrite S in Hf.
    destruct (Nat.ltb_spec e j), (Nat.ltb_spec j p), (Nat.ltb_spec e p);
      rewrite ?S; cbv iota;
      match goal with |- context [0 <? ?x] => destruct (Nat.ltb_spec 0 x) end;
      try (destruct f; lia);
      (split; [rewrite ?S; lia|]);
      (split; intros g; rewrite ?declared_before_cases, !S; destruct g; (lia || tauto)).
  - intros H. pose proof (H EMAIL) as He. pose proof (H JSON) as Hj.
    pose proof (H PDF) as Hp. rewrite S in He, Hj, Hp. rewrite He, Hj, Hp.
    cbn [Nat.ltb Nat.leb]. rewrite S, He. reflexivity.
Qed.

End ClassifierProps.

(** ** The action router *)

Section RouterProps.

Import Json Store ActionRouter.

Context (handlers : gmap string handler) (context : json) (entry_id : string).

#[local] Abbreviation route_one := (route_one handlers context entry_id).
#[local] Abbreviation route_loop := (route_loop handlers context entry_id).
#[local] Abbreviation route_actions := (route_actions handlers context entry_id).
#[local] Abbreviation recorded := (recorded handlers context entry_id).
#[local] Abbreviation store_after := (store_after handlers context entry_id).
#[local] Abbreviation store_after_all := (store_after_all handlers context entry_id).

Lemma route_one_eq action results store :
  route_one action (results, store)
  = (inr tt, (<[action := recorded action store]> results,
              store_after action store)).
Proof.
  unfold ActionRouter.route_one, try_body, ActionRouter.recorded,
    ActionRouter.store_after.
  destruct (handlers !! action) as [h|]; [|done].
  by destruct (h context entry_id store) as [[e|result] store1].
Qed.

#[local] Abbreviation results_after := (results_after handlers context entry_id).

Lemma route_loop_eq actions : forall results store,
  route_loop actions (results, store)
  = (inr tt, (results_after actions results store,
              store_after_all actions store)).
Proof.
  induction actions as [|a rest IH]; intros results store; [reflexivity|].
  cbn [ActionRouter.route_loop]. rewrite route_one_eq. apply IH.
Qed.

Lemma route_actions_eq actions store :
  route_actions actions store
  = (inr (results_after actions ∅ store), store_after_all actions store).
Proof. unfold ActionRouter.route_actions. by rewrite route_loop_eq. Qed.


Lemma results_after_app xs : forall ys results store,
  results_after (xs ++ ys) results store
  = results_after ys (results_after xs results store) (store_after_all xs store).
Proof.
  induction xs as [|a xs IH]; intros ys results store; [reflexivity|].
  cbn [app results_after]. rewrite IH. reflexivity.
Qed.

Lemma results_after_other actions : forall a results store,
  a ∉ actions -> results_after actions results store !! a = results !! a.
Proof.
  induction actions as [|b rest IH]; intros a results store Ha; [reflexivity|].
  apply not_elem_of_cons in Ha as [Hne Ha].
  cbn [ActionRouter.results_after]. rewrite IH by done. by rewrite lookup_insert_ne.
Qed.

Lemma results_after_dom actions : forall results store,
  dom (results_after actions results store) = list_to_set actions ∪ dom results.
Proof.
  induction actions as [|a rest IH]; intros results store; cbn [ActionRouter.results_after list_to_set].
  - set_solver.
  - rewrite IH, dom_insert_L. set_solver.
Qed.

Lemma results_after_last pre a post results store :
  a ∉ post ->
  results_after (pre ++ a :: post) results store !! a
  = Some (recorded a (store_after_all pre store)).
Proof.
  intros Ha. rewrite results_after_app. cbn [ActionRouter.results_after].
  rewrite results_after_other by done. apply lookup_insert_eq.
Qed.


End RouterProps.

Section RepositoryHandlers.

Import Json Store ActionRouter.

Lemma action_handlers_pure a h :
  action_handlers !! a = Some h -> exists f, h = pure_handler f.
Proof.
  intros H. apply elem_of_list_to_map_2 in H.
  apply list_elem_of_fmap in H as ([a' f] & E & _).
  injection E as -> ->. by exists f.
Qed.

Lemma get_entry_store_entry e r :
  get_entry (id e) (snd (store_entry e r)) = Some e.
Proof.
  unfold get_entry, hget_data, store_entry, lpush, hset. cbn.
  by rewrite lookup_insert_eq.
Qed.

Lemma add_action_triggered_entry eid line r e :
  get_entry eid r = Some e -> id e = eid ->
  get_entry eid (snd (add_action_triggered eid line r))
  = Some (set_actions_triggered (actions_triggered e ++ [line]) e).
Proof.
  intros H Hid. unfold add_action_triggered, update_entry. rewrite H.
  cbn [snd]. rewrite <- Hid at 1.
  apply (get_entry_store_entry
           (set_actions_triggered (actions_triggered e ++ [line]) e)).
Qed.

Lemma recorded_pure context eid a s1 s2 :
  recorded action_handlers context eid a s1
  = recorded action_handlers context eid a s2.
Proof.
  unfold recorded. destruct (action_handlers !! a) as [h|] eqn:E; [|done].
  by destruct (action_handlers_pure _ _ E) as [f ->].
Qed.

Lemma store_after_pure context eid a store :
  store_after action_handlers context eid a store
  = if registered action_handlers a
    then snd (add_action_triggered eid
                (trace_line action_handlers context eid a store) store)
    else store.
Proof.
  unfold store_after, registered, trace_line, recorded.
  destruct (action_handlers !! a) as [h|] eqn:E; [|done].
  destruct (action_handlers_pure _ _ E) as [f ->].
  rewrite bool_decide_true by done. reflexivity.
Qed.

Lemma trace_grows context eid actions : forall store e,
  get_entry eid store = Some e -> id e = eid ->
  exists e',
    get_entry eid (store_after_all action_handlers context eid actions store)
    = Some e'
    /\ id e' = eid
    /\ actions_triggered e'
       = actions_triggered e
         ++ map (fun a => trace_line action_handlers context eid a store)
                (List.filter (registered action_handlers) actions).
Proof.
  induction actions as [|a rest IH]; intros store e H Hid.
  - exists e. cbn. by rewrite app_nil_r.
  - cbn [store_after_all fold_left List.filter].
    fold (store_after_all action_handlers context eid rest).
    rewrite store_after_pure.
    destruct (registered action_handlers a) eqn:R.
    + pose proof (add_action_triggered_entry eid
                    (trace_line action_handlers context eid a store) store e H Hid)
        as H1.
      destruct (IH _ _ H1 Hid) as (e' & G & I & T).
      exists e'. split; [done|]. split; [done|]. rewrite T. cbn [actions_triggered set_actions_triggered map].
      rewrite <- app_assoc. cbn [app]. do 2 f_equal.
      apply map_ext. intros b. unfold trace_line. by rewrite (recorded_pure _ _ _ _ store).
    + destruct (IH _ _ H Hid) as (e' & G & I & T). by exists e'.
Qed.

End RepositoryHandlers.


(** C10.  The dictionary returned by [route_actions] has exactly the
    distinct actions of the list as its keys, and under each key the
    outcome of the last occurrence of that action.  With the handlers of
    the repository, the record's action trace still receives one line per
    occurrence of a registered action: the handler runs at every
    occurrence. *)
Theorem C10_result_keys (handlers : gmap string ActionRouter.handler)
    (context : Json.json) (entry_id : string) (actions : list string)
    (store : Store.redis) :
  exists results,
    ActionRouter.route_actions handlers context entry_id actions store
    = (inr results,
       ActionRouter.store_after_all handlers context entry_id actions store)
    /\ dom results = list_to_set actions
    /\ (forall pre a post,
          actions = pre ++ a :: post -> a ∉ post ->
          results !! a
          = Some (ActionRouter.recorded handlers context entry_id a
                    (ActionRouter.store_after_all handlers context entry_id
                       pre store)))
    /\ (handlers = ActionRouter.action_handlers ->
        forall e, Store.get_entry entry_id store = Some e ->
                  Store.id e = entry_id ->
        exists e',
          Store.get_entry entry_id
            (ActionRouter.store_after_all handlers context entry_id
               actions store) = Some e'
          /\ Store.actions_triggered e'
             = Store.actions_triggered e
               ++ map (fun a => ActionRouter.trace_line handlers context
                                  entry_id a store)
                      (List.filter (ActionRouter.registered handlers) actions)).
Proof.
  eexists. split; [apply route_actions_eq|]. split; [|split].
  - rewrite results_after_dom. set_solver.
  - intros pre a post -> Ha. by apply results_after_last.
  - intros -> e H Hid.
    destruct (trace_grows context entry_id actions store e H Hid)
      as (e' & G & _ & T).
    by exists e'.
Qed.
